(** * data.py: a minimal relational persistence layer over sqlite3

    Shallow embedding of [src/data.py]: the column descriptors ([Field] and
    its subclasses), the entity base class ([DBObject]) and the gateway
    ([Database]), followed by the properties of the specification that
    concern them. *)

From Stdlib Require Import ZArith String Ascii List Bool Lia.
From stdpp Require Import base option list strings gmap fin_maps pretty.

Local Open Scope string_scope.
Local Open Scope Z_scope.

(** ** Python values

    The values the module passes around: what a keyword argument, an
    instance attribute, a column default or a bound SQL parameter can hold.
    The fragment covers [None], integers and text. *)

Inductive value : Type :=
| VNone
| VInt (z : Z)
| VText (s : string).

#[global] Instance value_eq_dec : EqDecision value.
Proof. solve_decision. Defined.

(** Truth value testing: [None], [0] and [''] are false. *)
Definition truthy (v : value) : bool :=
  match v with
  | VNone => false
  | VInt z => negb (z =? 0)
  | VText s => negb (String.eqb s "")
  end.

Module PyStr.

(** [sep.join(l)]. *)
Fixpoint join (sep : string) (l : list string) : string :=
  match l with
  | [] => ""
  | [x] => x
  | x :: rest => x +:+ sep +:+ join sep rest
  end.

Fixpoint contains (c : ascii) (s : string) : bool :=
  match s with
  | EmptyString => false
  | String d s' => Ascii.eqb c d || contains c s'
  end.

Definition hex_digit (n : N) : ascii :=
  (if n <? 10 then ascii_of_N (48 + n) else ascii_of_N (87 + n))%N.

(** The quote [repr] picks for a string: a double quote only when the
    text has a single quote and no double quote. *)
Definition repr_quote (s : string) : ascii :=
  if contains "'"%char s && negb (contains "034"%char s)
  then "034"%char else "'"%char.

(** One character of a string's [repr]: the quote in use and the backslash
    are escaped, tab, newline and carriage return have their own escapes,
    other control characters are written in hexadecimal.  A byte from 128
    up is copied: the text is taken to be ASCII, or to hold printable
    characters only beyond it (Python escapes the others). *)
Definition repr_char (q c : ascii) : string :=
  let n := N_of_ascii c in
  if Ascii.eqb c q || Ascii.eqb c "\"%char then String "\"%char (String c "")
  else if (n =? 9)%N then "\t"
  else if (n =? 10)%N then "\n"
  else if (n =? 13)%N then "\r"
  else if ((n <? 32) || (n =? 127))%N
       then String "\"%char (String "x"%char
              (String (hex_digit (n / 16)) (String (hex_digit (n mod 16)) "")))
  else String c "".

Fixpoint repr_body (q : ascii) (s : string) : string :=
  match s with
  | EmptyString => ""
  | String c s' => repr_char q c +:+ repr_body q s'
  end.

(** [repr(s)] for a [str]. *)
Definition repr (s : string) : string :=
  let q := repr_quote s in
  String q (repr_body q s +:+ String q "").

End PyStr.

(** [repr(v)]. *)
Definition repr (v : value) : string :=
  match v with
  | VNone => "None"
  | VInt z => pretty z
  | VText s => PyStr.repr s
  end.

(** [str(v)], which is what an f-string field renders. *)
Definition str (v : value) : string :=
  match v with
  | VText s => s
  | _ => repr v
  end.

(** Keyword arguments, a row and the class-level [fields] are Python
    dictionaries whose iteration order matters: association lists in
    insertion order. *)
Definition kwargs_t : Type := list (string * value).

(** [d.get(k)]: the value stored under [k], [None] when there is none. *)
Fixpoint dict_get (d : kwargs_t) (k : string) : value :=
  match d with
  | [] => VNone
  | (k', v) :: rest => if String.eqb k' k then v else dict_get rest k
  end.

(** [repr(d)] for a dictionary with string keys. *)
Definition repr_item (kv : string * value) : string :=
  PyStr.repr (fst kv) +:+ ": " +:+ repr (snd kv).

Definition repr_dict (d : kwargs_t) : string :=
  "{" +:+ PyStr.join ", " (map repr_item d) +:+ "}".

(** ** Column descriptors: [Field] and its subclasses *)

Inductive field_class : Type :=
| Field_
| TextField
| IntField
| FloatField
| DateTimeField.

(** The class attribute [dbtype]. *)
Definition dbtype (k : field_class) : string :=
  match k with
  | Field_ => "BLOB"
  | TextField => "TEXT"
  | IntField => "INTEGER"
  | FloatField => "REAL"
  | DateTimeField => "TEXT"
  end.

Record Field : Type := mkField {
  f_class : field_class;
  null : bool;
  default : value;
  unique : bool;
  constraints : option string
}.

(** [Field.__init__]: [null=False, default=None, unique=False,
    constraints=None]. *)
Definition new_Field (k : field_class) : Field :=
  {| f_class := k; null := false; default := VNone; unique := false;
     constraints := None |}.

(** Truth value of the [constraints] attribute ([None] or a string). *)
Definition constraints_truthy (c : option string) : bool :=
  match c with
  | None => false
  | Some s => negb (String.eqb s "")
  end.

(** [Field.to_ddl]. *)
Definition to_ddl (self : Field) : string :=
  let ddl := dbtype (f_class self) in
  let ddl := if null self then ddl +:+ " NULL" else ddl +:+ " NOT NULL" in
  let ddl := if truthy (default self)
             then ddl +:+ " DEFAULT " +:+ repr (default self) else ddl in
  let ddl := if unique self then ddl +:+ " UNIQUE" else ddl in
  let ddl := match constraints self with
             | Some c => if constraints_truthy (Some c)
                         then ddl +:+ " " +:+ c else ddl
             | None => ddl
             end in
  ddl.

(** ** Exceptions and results *)

Inductive exn : Type :=
| ValueError (msg : string)
| RuntimeError (msg : string)
| RecordNotFoundError (msg : string)
| NameError (msg : string)
| AttributeError (msg : string)
| SystemError (msg : string)
| sqlite3_Error (msg : string).

Inductive result (A : Type) : Type :=
| Ok (a : A)
| Raise (e : exn).
Arguments Ok {A} a.
Arguments Raise {A} e.

(** ** Entity classes: [DBObject] and its subclasses *)

(** The class attribute [table_name]: [DBObject] itself declares none, a
    subclass binds it to a string (or to [None]). *)
Inductive class_attr : Type :=
| Absent
| IsNone
| IsStr (s : string).

Record DBObject_class : Type := mkClass {
  cls_name : string;
  table_name : class_attr;
  fields : list (string * Field)
}.

(** [DBObject]: [fields = {}] and no [table_name]. *)
Definition DBObject : DBObject_class :=
  {| cls_name := "DBObject"; table_name := Absent; fields := [] |}.

Definition User : DBObject_class :=
  {| cls_name := "User";
     table_name := IsStr "users";
     fields := [("username", mkField TextField false VNone true None);
                ("password", new_Field TextField)] |}.

Definition Page : DBObject_class :=
  {| cls_name := "Page";
     table_name := IsStr "pages";
     fields := [("title", mkField TextField false VNone true None);
                ("body", new_Field TextField)] |}.

Definition PageVersion : DBObject_class :=
  {| cls_name := "PageVersion";
     table_name := IsStr "page_versions";
     fields := [("body", new_Field TextField);
                ("user_id", mkField IntField false VNone false
                              (Some "REFERENCES users(id)"));
                ("saved_at", new_Field DateTimeField)] |}.

(** Reading [cls.table_name]. *)
Definition get_table_name (cls : DBObject_class) : result class_attr :=
  match table_name cls with
  | Absent => Raise (AttributeError
      ("type object '" +:+ cls_name cls
       +:+ "' has no attribute 'table_name'"))
  | a => Ok a
  end.

(** Reading [dbobj.table_name] on an instance whose dictionary does not bind
    that name ([unshadowed]): the class attribute again, with the message of
    an instance lookup when there is none. *)
Definition self_table_name (cls : DBObject_class) : result class_attr :=
  match table_name cls with
  | Absent => Raise (AttributeError
      ("'" +:+ cls_name cls +:+ "' object has no attribute 'table_name'"))
  | a => Ok a
  end.

(** How an f-string renders the table name. *)
Definition format_table_name (a : class_attr) : string :=
  match a with
  | IsStr s => s
  | _ => "None"
  end.

Definition table_name_truthy (a : class_attr) : bool :=
  match a with
  | IsStr s => negb (String.eqb s "")
  | _ => false
  end.

(** [cls.field_names()]: [list(self.fields.keys())]. *)
Definition field_names (cls : DBObject_class) : list string :=
  map fst (fields cls).

(** [DBObject._fields_str]. *)
Definition _fields_str (cls : DBObject_class) : string :=
  PyStr.join ", " (map fst (fields cls)).

(** [DBObject._placeholders_str]. *)
Definition _placeholders_str (cls : DBObject_class) : string :=
  PyStr.join ", " (map (fun _ => "?") (field_names cls)).

(** [DBObject.generate_create_table]: the column list starts with the
    primary key and grows by one entry per declared field. *)
Definition generate_create_table (cls : DBObject_class)
    (if_not_exists : bool) : result string :=
  match get_table_name cls with
  | Raise e => Raise e
  | Ok tn =>
    if negb (table_name_truthy tn)
    then Raise (RuntimeError "table_name must be specified!")
    else
      let ddl := "CREATE TABLE " in
      let ddl := if if_not_exists then ddl +:+ "IF NOT EXISTS " else ddl in
      let ddl := ddl +:+ format_table_name tn +:+ " (" in
      let cols := ["id INTEGER PRIMARY KEY AUTOINCREMENT"] in
      let cols := fold_left
        (fun (cols : list string) (item : string * Field) =>
           let '(colname, coltype) := item in
           (cols ++ [colname +:+ " " +:+ to_ddl coltype])%list)
        (fields cls) cols in
      let ddl := ddl +:+ PyStr.join (String "," (String "010" "")) cols in
      let ddl := ddl +:+ ")" in
      Ok ddl
  end.

(** ** The sqlite3 connection

    The engine is outside the module: it is an interface, as the gateway
    sees it.  A statement and its bound parameters go in; an error or a
    cursor comes out. *)

Record Cursor : Type := mkCursor {
  rows : list kwargs_t;        (* each row maps column names to values *)
  lastrowid : value
}.

(** [cursor.fetchone()]: the first row, [None] when there is none. *)
Definition fetchone (c : Cursor) : option kwargs_t := head (rows c).

Class Engine (DB : Type) : Type :=
  engine_execute : string -> list value -> DB -> string + (DB * Cursor).

(** ** Objects

    Entity instances live on a heap: [save] receives a reference and the
    caller keeps it.  An instance dictionary holds the data attributes
    ([id] and one per declared field); [fields], [table_name] and the
    methods are looked up on the class.  Python looks an attribute up on
    the instance first, so the two agree on the instances whose dictionary
    binds none of the names of the class ([unshadowed] below); the
    properties that read such a name through an instance are stated for
    those. *)

Definition loc : Type := positive.

Record instance : Type := mkInstance {
  inst_class : DBObject_class;
  inst_dict : gmap string value
}.

(** The names a [DBObject] class binds, its attributes and its methods,
    and the special attributes every object has (an assignment to
    [__class__], [__dict__] or [__weakref__] is checked or refused). *)
Definition class_attribute_names : list string :=
  ["fields"; "table_name"; "_fields_str"; "_placeholders_str"; "field_names";
   "values"; "as_dict"; "generate_create_table"; "__init__"; "__str__";
   "__class__"; "__dict__"; "__weakref__"; "__module__"; "__doc__"].

(** The instance dictionary binds no name of the class, so that a lookup of
    such a name on the instance reaches the class. *)
Definition unshadowed (o : instance) : bool :=
  forallb (fun name => bool_decide (inst_dict o !! name = None))
          class_attribute_names.

(** No declared field has the name of an attribute or a method of the
    class. *)
Definition declares_no_class_attribute (cls : DBObject_class) : bool :=
  forallb (fun f => negb (existsb (String.eqb f) class_attribute_names))
          (map fst (fields cls)).

(** What a function of the module hands back: [None] or a reference. *)
Inductive pyret : Type :=
| RNone
| RObj (l : loc).

Record world (DB : Type) : Type := mkWorld {
  store : DB;                                  (* the committed database *)
  statements : list (string * list value);     (* every call of con.execute *)
  heap : gmap loc instance
}.
Arguments mkWorld {DB} _ _ _.
Arguments store {DB} _.
Arguments statements {DB} _.
Arguments heap {DB} _.

(** ** A state and exception monad *)

Definition M (W A : Type) : Type := W -> result A * W.

Definition ret {W A} (a : A) : M W A := fun w => (Ok a, w).

Definition raise {W A} (e : exn) : M W A := fun w => (Raise e, w).

Definition bind {W A B} (m : M W A) (k : A -> M W B) : M W B :=
  fun w =>
    match m w with
    | (Ok a, w') => k a w'
    | (Raise e, w') => (Raise e, w')
    end.

Definition lift {W A} (r : result A) : M W A := fun w => (r, w).

Notation "'let*' x ':=' m 'in' k" := (bind m (fun x => k))
  (at level 10, x name, m at level 100, k at level 200, only parsing).

(** [for x in xs: body(x)]. *)
Fixpoint for_each {W A} (xs : list A) (body : A -> M W unit) : M W unit :=
  match xs with
  | [] => ret tt
  | x :: rest => let* _ := body x in for_each rest body
  end.

(** [[f(x) for x in xs]]. *)
Fixpoint comprehension {W A B} (xs : list A) (f : A -> M W B) : M W (list B) :=
  match xs with
  | [] => ret []
  | x :: rest =>
      let* y := f x in
      let* ys := comprehension rest f in
      ret (y :: ys)
  end.

(** Names bound at module level in data.py.  None of them is a connection. *)
Inductive global_obj : Type :=
| G_module (name : string)
| G_class (name : string).

Definition module_globals : list (string * global_obj) :=
  [("sqlite3", G_module "sqlite3");
   ("RecordNotFoundError", G_class "RecordNotFoundError");
   ("Database", G_class "Database");
   ("Field", G_class "Field");
   ("TextField", G_class "TextField");
   ("IntField", G_class "IntField");
   ("FloatField", G_class "FloatField");
   ("DateTimeField", G_class "DateTimeField");
   ("DBObject", G_class "DBObject");
   ("User", G_class "User");
   ("Page", G_class "Page");
   ("PageVersion", G_class "PageVersion")].

Fixpoint assoc {A} (k : string) (l : list (string * A)) : option A :=
  match l with
  | [] => None
  | (k', a) :: rest => if String.eqb k' k then Some a else assoc k rest
  end.

(** Evaluating a bare name inside a method: a module-level binding, or
    [NameError]. *)
Definition load_global {W} (name : string) : M W global_obj :=
  match assoc name module_globals with
  | Some g => ret g
  | None => raise (NameError ("name '" +:+ name +:+ "' is not defined"))
  end.

Section Gateway.

Context {DB : Type} `{!Engine DB}.

Local Abbreviation W := (world DB).

(** *** Instance attributes *)

Definition deref (l : loc) : M W instance :=
  fun w =>
    match heap w !! l with
    | Some o => (Ok o, w)
    | None => (Raise (SystemError "dangling reference"), w)
    end.

Definition getattr (l : loc) (name : string) : M W value :=
  let* o := deref l in
  match inst_dict o !! name with
  | Some v => ret v
  | None => raise (AttributeError
      ("'" +:+ cls_name (inst_class o) +:+ "' object has no attribute '"
       +:+ name +:+ "'"))
  end.

Definition setattr (l : loc) (name : string) (v : value) : M W unit :=
  let* o := deref l in
  fun w =>
    (Ok tt,
     mkWorld (store w) (statements w)
       (<[l := mkInstance (inst_class o) (<[name := v]> (inst_dict o))]>
          (heap w))).

(** Allocation of a new, empty instance of [cls]. *)
Definition alloc (cls : DBObject_class) : M W loc :=
  fun w =>
    let l := fresh (dom (heap w)) in
    (Ok l,
     mkWorld (store w) (statements w)
       (<[l := mkInstance cls ∅]> (heap w))).

(** *** [DBObject] *)

(** [DBObject.__init__]. *)
Definition DBObject_init (self : loc) (kwargs : kwargs_t) : M W unit :=
  let* _ := setattr self "id" (dict_get kwargs "id") in
  let* o := deref self in
  for_each (map fst (fields (inst_class o)))
    (fun field => setattr self field (dict_get kwargs field)).

(** Calling the class with keyword arguments: a new instance. *)
Definition new (cls : DBObject_class) (kwargs : kwargs_t) : M W loc :=
  let* self := alloc cls in
  let* _ := DBObject_init self kwargs in
  ret self.

(** [DBObject.values].  [field_names] and [fields] are read on the class, as
    they are for an instance whose dictionary does not bind them. *)
Definition values (self : loc) : M W (list value) :=
  let* o := deref self in
  comprehension (field_names (inst_class o)) (fun field => getattr self field).

(** [dict(pairs)]: a later pair overrides an earlier one with its key. *)
Definition dict_of_pairs (l : list (string * value)) : gmap string value :=
  fold_left (fun d kv => <[fst kv := snd kv]> d) l ∅.

(** [DBObject.as_dict]. *)
Definition as_dict (self : loc) : M W (gmap string value) :=
  let* o := deref self in
  let names := field_names (inst_class o) in
  let* vs := values self in
  ret (dict_of_pairs (zip names vs)).

(** *** [Database] *)

(** [self.con.execute(sql, params)]. *)
Definition con_execute (sql : string) (params : list value) : M W Cursor :=
  fun w =>
    let log := (statements w ++ [(sql, params)])%list in
    match engine_execute sql params (store w) with
    | inl msg => (Raise (sqlite3_Error msg), mkWorld (store w) log (heap w))
    | inr (db, cursor) => (Ok cursor, mkWorld db log (heap w))
    end.

(** [with self.con: body]: commit when the body returns, roll the
    database back and let the exception through when it raises. *)
Definition with_con {A} (body : M W A) : M W A :=
  fun w =>
    match body w with
    | (Ok a, w') => (Ok a, w')
    | (Raise e, w') =>
        (Raise e, mkWorld (store w) (statements w') (heap w'))
    end.

(** [Database.get]. *)
Definition get (dbobj_class : DBObject_class) (kwargs : kwargs_t) : M W loc :=
  match kwargs with
  | [] => raise (ValueError "Lookup parameters for .get() are required")
  | _ =>
    let* tn := lift (get_table_name dbobj_class) in
    let sql := "SELECT * FROM " +:+ format_table_name tn +:+ " WHERE " in
    let clauses :=
      PyStr.join " AND " (map (fun field => field +:+ " = ?") (map fst kwargs)) in
    let sql := sql +:+ clauses in
    with_con (
      let* cursor := con_execute sql (map snd kwargs) in
      match fetchone cursor with
      | None =>
          raise (RecordNotFoundError
            ("No record for " +:+ cls_name dbobj_class
             +:+ " found with params " +:+ repr_dict kwargs))
      | Some row => new dbobj_class row
      end)
  end.

(** [Database._update]: no [return] statement, the call yields [None].  The
    table name and the methods of the instance are those of its class. *)
Definition _update (dbobj : loc) : M W pyret :=
  let* o := deref dbobj in
  let cls := inst_class o in
  let* tn := lift (self_table_name cls) in
  let sql := "REPLACE INTO " +:+ format_table_name tn
             +:+ " (id, " +:+ _fields_str cls +:+ ") " in
  let sql := sql +:+ "VALUES (?, " +:+ _placeholders_str cls +:+ ")" in
  let* _ := with_con (
    let* id := getattr dbobj "id" in
    let* vs := values dbobj in
    con_execute sql (id :: vs)) in
  ret RNone.

(** The attribute [execute] of a module-level object: none has it. *)
Definition global_execute (c : global_obj)
    : M W (string -> list value -> M W Cursor) :=
  match c with
  | G_module name => raise (AttributeError
      ("module '" +:+ name +:+ "' has no attribute 'execute'"))
  | G_class name => raise (AttributeError
      ("type object '" +:+ name +:+ "' has no attribute 'execute'"))
  end.

(** [Database._create]: the statement goes to the name [c], which the
    method does not bind. *)
Definition _create (dbobj : loc) : M W pyret :=
  let* o := deref dbobj in
  let cls := inst_class o in
  let* tn := lift (self_table_name cls) in
  let sql := "INSERT INTO " +:+ format_table_name tn
             +:+ " (" +:+ _fields_str cls +:+ ") " in
  let sql := sql +:+ "VALUES (" +:+ _placeholders_str cls +:+ ")" in
  let* _ := with_con (
    let* c := load_global "c" in
    let* execute := global_execute c in
    let* vs := values dbobj in
    let* cursor := execute sql vs in
    setattr dbobj "id" (lastrowid cursor)) in
  ret RNone.

(** [Database.save]. *)
Definition save (dbobj : loc) : M W pyret :=
  let* id := getattr dbobj "id" in
  if truthy id then _update dbobj else _create dbobj.

End Gateway.

(** ** The rest of the gateway: tables and filtered queries *)

(** The [where] argument of [select]: absent, a plain condition, or a
    sequence whose first element is the condition and whose other elements
    are the bound parameters.  The sequence is taken non-empty. *)
Inductive where_arg : Type :=
| WNone
| WStr (s : string)
| WTuple (clause : value) (params : list value).

(** Truth value of the [clauses] argument ([None] or a string). *)
Definition clauses_truthy (c : option string) : bool :=
  match c with
  | None => false
  | Some s => negb (String.eqb s "")
  end.

(** [Database.select_sql]. *)
Definition select_sql (dbobj_class : DBObject_class) (where_ : where_arg)
    (clauses : option string) : result (string * list value) :=
  match get_table_name dbobj_class with
  | Raise e => Raise e
  | Ok tn =>
    let sql := "SELECT * FROM " +:+ format_table_name tn +:+ " " in
    let where_params : list value := [] in
    let '(sql, where_params) :=
      match where_ with
      | WStr s => (sql +:+ "WHERE " +:+ s +:+ " ", where_params)
      | WTuple clause params => (sql +:+ "WHERE " +:+ str clause +:+ " ", params)
      | WNone => (sql, where_params)
      end in
    let sql := match clauses with
               | Some c => if clauses_truthy (Some c) then sql +:+ c else sql
               | None => sql
               end in
    Ok (sql, where_params)
  end.

Section Tables.

Context {DB : Type} `{!Engine DB}.

Local Abbreviation W := (world DB).

(** [Database.drop_table]. *)
Definition drop_table (dbobj_class : DBObject_class) : M W unit :=
  with_con (
    let* tn := lift (get_table_name dbobj_class) in
    let* _ := con_execute ("DROP TABLE " +:+ format_table_name tn) [] in
    ret tt).

(** [Database.create_table]. *)
Definition create_table (dbobj_class : DBObject_class)
    (if_not_exists recreate : bool) : M W unit :=
  let* _ := if recreate then drop_table dbobj_class else ret tt in
  with_con (
    let* ddl := lift (generate_create_table dbobj_class if_not_exists) in
    let* _ := con_execute ddl [] in
    ret tt).

(** [Database.select]. *)
Definition select (dbobj_class : DBObject_class) (where_ : where_arg)
    (clauses : option string) : M W (list loc) :=
  let* r := lift (select_sql dbobj_class where_ clauses) in
  let sql := fst r in
  let where_params := snd r in
  with_con (
    let* cursor := con_execute sql where_params in
    comprehension (rows cursor) (fun row => new dbobj_class row)).

(** [d.items()] for the dictionary that [as_dict] builds: the keys come in
    insertion order, which is the order of the declared fields (the names of
    a dictionary are distinct). *)
Definition dict_items (names : list string) (d : gmap string value)
    : list (string * value) :=
  omap (fun k => match d !! k with Some v => Some (k, v) | None => None end)
       names.

(** [DBObject.__str__]. *)
Definition DBObject_str (self : loc) : M W string :=
  let* o := deref self in
  let output := "<" +:+ cls_name (inst_class o) +:+ " " in
  let* id := getattr self "id" in
  let output := if truthy id then output +:+ "id=" +:+ str id +:+ " "
                else output in
  let* d := as_dict self in
  let items := dict_items (field_names (inst_class o)) d in
  let output := output
    +:+ PyStr.join " " (map (fun kv => fst kv +:+ "=" +:+ str (snd kv)) items) in
  let output := output +:+ ">" in
  ret output.

End Tables.

(** ** A small in-memory engine

    An instance of the engine interface for the statement shapes the
    gateway issues ([SELECT * FROM t WHERE k = ? AND ...], [REPLACE INTO],
    [INSERT INTO]), so that the gateway can be run on concrete inputs. *)

Module MiniSQL.

Record table : Type := mkTable {
  columns : list string;       (* the declared columns, without id *)
  autoinc : Z;                 (* the largest key handed out so far *)
  trows : list kwargs_t
}.

Definition db : Type := list (string * table).

Definition is_sep (c : ascii) : bool :=
  Ascii.eqb c " " || Ascii.eqb c "(" || Ascii.eqb c ")"
  || Ascii.eqb c "," || Ascii.eqb c "010".

Definition flush (cur : string) : list string :=
  if String.eqb cur "" then [] else [cur].

Fixpoint tokens_from (cur : string) (s : string) : list string :=
  match s with
  | EmptyString => flush cur
  | String c s' =>
      if is_sep c then (flush cur ++ tokens_from "" s')%list
      else tokens_from (cur +:+ String c "") s'
  end.

Definition tokens (s : string) : list string := tokens_from "" s.

(** The rest of [l] after the prefix [pre]. *)
Fixpoint after (pre l : list string) : option (list string) :=
  match pre, l with
  | [], _ => Some l
  | p :: pre', x :: l' => if String.eqb p x then after pre' l' else None
  | _ :: _, [] => None
  end.

(** The tokens before the keyword [kw], and those after it. *)
Fixpoint split_at (kw : string) (l : list string)
    : option (list string * list string) :=
  match l with
  | [] => None
  | x :: l' =>
      if String.eqb x kw then Some ([], l')
      else match split_at kw l' with
           | Some (a, b) => Some (x :: a, b)
           | None => None
           end
  end.

(** [k1 = ? AND k2 = ? ...]: the keys. *)
Fixpoint where_keys (fuel : nat) (l : list string) : option (list string) :=
  match fuel with
  | O => None
  | S fuel' =>
      match l with
      | k :: eq :: q :: rest =>
          if String.eqb eq "=" && String.eqb q "?" then
            match rest with
            | [] => Some [k]
            | kw :: rest' =>
                if String.eqb kw "AND"
                then option_map (cons k) (where_keys fuel' rest')
                else None
            end
          else None
      | _ => None
      end
  end.

Definition value_eqb (a b : value) : bool := bool_decide (a = b).

Definition matches (conds : list (string * value)) (row : kwargs_t) : bool :=
  forallb (fun kv => negb (value_eqb (snd kv) VNone)
                     && value_eqb (dict_get row (fst kv)) (snd kv)) conds.

Fixpoint update_table (t : string) (tb : table) (d : db) : db :=
  match d with
  | [] => []
  | (t', tb') :: rest =>
      if String.eqb t' t then (t, tb) :: rest
      else (t', tb') :: update_table t tb rest
  end.

Definition known_columns (tb : table) (cols : list string) : bool :=
  forallb (fun c => existsb (String.eqb c) ("id" :: columns tb)) cols.

Definition select (t : string) (rest : list string) (params : list value)
    (d : db) : string + (db * Cursor) :=
  match after ["WHERE"] rest with
  | None => inl "near WHERE: syntax error"
  | Some conds =>
    match where_keys (S (length conds)) conds, assoc t d with
    | None, _ => inl "syntax error"
    | _, None => inl ("no such table: " +:+ t)
    | Some keys, Some tb =>
        if negb (known_columns tb keys) then inl "no such column"
        else if negb (Nat.eqb (length keys) (length params))
        then inl "Incorrect number of bindings supplied"
        else inr (d, mkCursor (filter (fun row => matches (zip keys params) row)
                                      (trows tb)) VNone)
    end
  end.

(** The row a statement with columns [cols] and values [params] writes,
    with the key [id]. *)
Definition make_row (tb : table) (id : value) (cols : list string)
    (params : list value) : kwargs_t :=
  ("id", id) :: map (fun c => (c, dict_get (zip cols params) c)) (columns tb).

Definition write (replace : bool) (t : string) (rest : list string)
    (params : list value) (d : db) : string + (db * Cursor) :=
  match split_at "VALUES" rest, assoc t d with
  | None, _ => inl "syntax error"
  | _, None => inl ("no such table: " +:+ t)
  | Some (cols, marks), Some tb =>
      if negb (known_columns tb cols) then inl "no such column"
      else if negb (Nat.eqb (length cols) (length marks)
                    && Nat.eqb (length marks) (length params))
      then inl "Incorrect number of bindings supplied"
      else
        let id := match dict_get (zip cols params) "id" with
                  | VInt n => n
                  | _ => autoinc tb + 1
                  end in
        let old := filter (fun row => negb (value_eqb (dict_get row "id") (VInt id)))
                          (trows tb) in
        if negb replace && negb (Nat.eqb (length old) (length (trows tb)))
        then inl "UNIQUE constraint failed"
        else
          let row := make_row tb (VInt id) cols params in
          let tb' := mkTable (columns tb) (Z.max id (autoinc tb))
                             (old ++ [row])%list in
          inr (update_table t tb' d, mkCursor [] (VInt id))
  end.

Definition execute (sql : string) (params : list value) (d : db)
    : string + (db * Cursor) :=
  let ts := tokens sql in
  match after ["SELECT"; "*"; "FROM"] ts, after ["REPLACE"; "INTO"] ts,
        after ["INSERT"; "INTO"] ts with
  | Some (t :: rest), _, _ => select t rest params d
  | _, Some (t :: rest), _ => write true t rest params d
  | _, _, Some (t :: rest) => write false t rest params d
  | _, _, _ => inl "syntax error"
  end.

End MiniSQL.

#[global] Instance mini_engine : Engine MiniSQL.db := MiniSQL.execute.

(** A database with an empty [pages] table, and no object on the heap. *)
Definition empty_pages : world MiniSQL.db :=
  mkWorld [("pages", MiniSQL.mkTable ["title"; "body"] 0 [])] [] ∅.

(** The world after [p = Page(...)] with the given keyword arguments. *)
Definition with_page (kwargs : kwargs_t) : loc * world MiniSQL.db :=
  match new Page kwargs empty_pages with
  | (Ok l, w) => (l, w)
  | (Raise _, w) => (1%positive, w)
  end.


(** ** Table statements on the small engine

    The engine extended with [CREATE TABLE] and [DROP TABLE]; every other
    statement goes to the engine above. *)

Module MiniDDL.

Fixpoint split_on (c : ascii) (cur : string) (s : string) : list string :=
  match s with
  | EmptyString => [cur]
  | String a s' =>
      if Ascii.eqb a c then cur :: split_on c "" s'
      else split_on c (cur +:+ String a "") s'
  end.

(** The text after the first opening parenthesis. *)
Fixpoint after_paren (s : string) : string :=
  match s with
  | EmptyString => ""
  | String a s' => if Ascii.eqb a "(" then s' else after_paren s'
  end.

(** The column names of a table definition, the key left out. *)
Definition column_names (sql : string) : list string :=
  filter (fun c => negb (String.eqb c "id"))
    (omap (fun def => head (MiniSQL.tokens def))
          (split_on "," "" (after_paren sql))).

Fixpoint remove_table (t : string) (d : MiniSQL.db) : MiniSQL.db :=
  match d with
  | [] => []
  | (t', tb) :: rest =>
      if String.eqb t' t then rest else (t', tb) :: remove_table t rest
  end.

Definition create (guarded : bool) (t : string) (sql : string)
    (d : MiniSQL.db) : string + (MiniSQL.db * Cursor) :=
  match assoc t d with
  | Some _ =>
      if guarded then inr (d, mkCursor [] VNone)
      else inl ("table " +:+ t +:+ " already exists")
  | None =>
      inr ((d ++ [(t, MiniSQL.mkTable (column_names sql) 0 [])])%list,
           mkCursor [] VNone)
  end.

Definition execute (sql : string) (params : list value) (d : MiniSQL.db)
    : string + (MiniSQL.db * Cursor) :=
  let ts := MiniSQL.tokens sql in
  match MiniSQL.after ["CREATE"; "TABLE"; "IF"; "NOT"; "EXISTS"] ts,
        MiniSQL.after ["CREATE"; "TABLE"] ts,
        MiniSQL.after ["DROP"; "TABLE"] ts with
  | Some (t :: _), _, _ => create true t sql d
  | _, Some (t :: _), _ => create false t sql d
  | _, _, Some [t] =>
      match assoc t d with
      | Some _ => inr (remove_table t d, mkCursor [] VNone)
      | None => inl ("no such table: " +:+ t)
      end
  | _, _, _ => MiniSQL.execute sql params d
  end.

End MiniDDL.

(** A database without tables and without objects. *)
Definition empty_world : world MiniSQL.db := mkWorld [] [] ∅.

(** The number of occurrences of a character. *)
Fixpoint count_char (c : ascii) (s : string) : nat :=
  match s with
  | EmptyString => O
  | String a s' => ((if Ascii.eqb a c then 1 else 0) + count_char c s')%nat
  end.

(** A page that carries the key 7, one that was never saved, and one whose
    key is the integer 0. *)
Definition page7 : loc * world MiniSQL.db :=
  with_page [("id", VInt 7); ("title", VText "Home"); ("body", VText "hello")].

Definition page_new : loc * world MiniSQL.db :=
  with_page [("title", VText "Home"); ("body", VText "hello")].

Definition page0 : loc * world MiniSQL.db :=
  with_page [("id", VInt 0); ("title", VText "Home"); ("body", VText "hello")].

(** The round trip of the specification: [save(e)], then a lookup by the
    key [e] has afterwards. *)
Definition save_then_get {DB : Type} `{!Engine DB} (cls : DBObject_class)
    (e : loc) : M (world DB) loc :=
  let* _ := save e in
  let* id := getattr e "id" in
  get cls [("id", id)].

(** The object that [page7] holds. *)
Definition page7_obj : instance :=
  match heap (snd page7) !! fst page7 with
  | Some o => o
  | None => mkInstance Page ∅
  end.


(** An entity class that declares no field, and an instance of it with the
    key 3, in a database without tables. *)
Definition Marker : DBObject_class :=
  {| cls_name := "Marker"; table_name := IsStr "markers"; fields := [] |}.

Definition marker3 : loc * world MiniSQL.db :=
  match new Marker [("id", VInt 3)] empty_world with
  | (Ok l, w) => (l, w)
  | (Raise _, w) => (1%positive, w)
  end.

(** An entity class whose [table_name] is [None], and a database that has a
    table called [None]. *)
Definition Unnamed : DBObject_class :=
  {| cls_name := "Unnamed"; table_name := IsNone; fields := [] |}.

Definition none_table : world MiniSQL.db :=
  mkWorld [("None", MiniSQL.mkTable [] 0 [])] [] ∅.

(** * The specification's wording

    Definitions that follow the words of the specification, to be compared
    with the functions above. *)

(** [x] occurs in [s]. *)
Definition occurs_in (x s : string) : Prop :=
  exists pre post, s = pre +:+ x +:+ post.

(** The DDL fragment as the specification words it: the storage-type
    keyword, the nullability clause, a DEFAULT clause whenever a default is
    set, UNIQUE when the flag is set, the raw constraint when present. *)
Definition to_ddl_spec (f : Field) : string :=
  dbtype (f_class f)
  +:+ (if null f then " NULL" else " NOT NULL")
  +:+ (match default f with
       | VNone => ""
       | d => " DEFAULT " +:+ repr d
       end)
  +:+ (if unique f then " UNIQUE" else "")
  +:+ (match constraints f with
       | Some c => " " +:+ c
       | None => ""
       end).

(** The descriptors on which a set default or constraint is also a true
    one: the default is not [0] or [''], the constraint is not ['']. *)
Definition plain_descriptor (f : Field) : bool :=
  (truthy (default f) || bool_decide (default f = VNone))
  && negb (bool_decide (constraints f = Some "")).

Definition column_ddl (item : string * Field) : string :=
  fst item +:+ " " +:+ to_ddl (snd item).

(** The statement as the specification words it: nothing (a configuration
    failure) when the table name is unset, otherwise CREATE TABLE, the
    optional IF NOT EXISTS, the table name, and between parentheses the
    primary key followed by one column per declared field, in declaration
    order. *)
Definition create_table_spec (cls : DBObject_class) (if_not_exists : bool)
    : option string :=
  match table_name cls with
  | Absent | IsNone | IsStr "" => None
  | IsStr tn =>
      Some ("CREATE TABLE " +:+ (if if_not_exists then "IF NOT EXISTS " else "")
            +:+ tn +:+ " ("
            +:+ PyStr.join (String "," (String "010" ""))
                  ("id INTEGER PRIMARY KEY AUTOINCREMENT"
                   :: map column_ddl (fields cls))
            +:+ ")")
  end.

(** The value of a call, when it returns one. *)
Definition returned {A} (r : result A) : option A :=
  match r with Ok a => Some a | Raise _ => None end.

(** The text without its line breaks. *)
Fixpoint drop_newlines (s : string) : string :=
  match s with
  | EmptyString => ""
  | String c s' =>
      if Ascii.eqb c "010" then drop_newlines s' else String c (drop_newlines s')
  end.

Definition is_ok {A} (r : result A) : bool :=
  match r with Ok _ => true | Raise _ => false end.

(** The lookup condition: [k1 = ? AND k2 = ? ...]. *)
Fixpoint where_clause (keys : list string) : string :=
  match keys with
  | [] => ""
  | [k] => k +:+ " = ?"
  | k :: rest => k +:+ " = ? AND " +:+ where_clause rest
  end.

Definition select_statement (tn : string) (keys : list string) : string :=
  "SELECT * FROM " +:+ tn +:+ " WHERE " +:+ where_clause keys.

(** [REPLACE INTO t (id, f1, f2, ...) VALUES (?, ?, ?, ...)]. *)
Definition replace_statement (tn : string) (names : list string) : string :=
  "REPLACE INTO " +:+ tn +:+ " (id, " +:+ PyStr.join ", " names
  +:+ ") VALUES (?, " +:+ PyStr.join ", " (map (fun _ => "?") names) +:+ ")".

Definition not_found_message (cls : DBObject_class) (kwargs : kwargs_t)
    : string :=
  "No record for " +:+ cls_name cls +:+ " found with params "
  +:+ repr_dict kwargs.

(** The instance dictionary a new instance has after [__init__]: [id] and
    every declared field, each read from the keyword arguments. *)
Definition init_dict (cls : DBObject_class) (kwargs : kwargs_t)
    : gmap string value :=
  fold_left (fun d field => <[field := dict_get kwargs field]> d)
            (map fst (fields cls)) (<["id" := dict_get kwargs "id"]> ∅).

(** * Properties *)

(** ** Strings *)

Lemma append_nil_r (s : string) : s +:+ "" = s.
Proof.
  induction s as [|a s IH]; [reflexivity|].
  change (String a s +:+ "") with (String a (s +:+ "")). by rewrite IH.
Qed.

Lemma append_assoc (s1 s2 s3 : string) :
  (s1 +:+ s2) +:+ s3 = s1 +:+ s2 +:+ s3.
Proof.
  induction s1 as [|a s1 IH]; [reflexivity|].
  change ((String a s1 +:+ s2) +:+ s3) with (String a ((s1 +:+ s2) +:+ s3)).
  by rewrite IH.
Qed.

Lemma occurs_in_refl (x : string) : occurs_in x x.
Proof. exists "", "". by rewrite append_nil_r. Qed.

Lemma occurs_in_app_l (x s t : string) : occurs_in x s -> occurs_in x (s +:+ t).
Proof.
  intros (pre & post & ->). exists pre, (post +:+ t).
  by rewrite !append_assoc.
Qed.

Lemma occurs_in_app_r (x s t : string) : occurs_in x t -> occurs_in x (s +:+ t).
Proof.
  intros (pre & post & ->). exists (s +:+ pre), post.
  by rewrite !append_assoc.
Qed.

Lemma occurs_in_join (sep x : string) (l : list string) :
  In x l -> occurs_in x (PyStr.join sep l).
Proof.
  induction l as [|y l IH]; [intros []|].
  intros [-> | Hin].
  - destruct l as [|z l]; [apply occurs_in_refl|].
    change (occurs_in x (x +:+ sep +:+ PyStr.join sep (z :: l))).
    apply occurs_in_app_l, occurs_in_refl.
  - destruct l as [|z l]; [destruct Hin|].
    change (occurs_in x (y +:+ sep +:+ PyStr.join sep (z :: l))).
    by apply occurs_in_app_r, occurs_in_app_r, IH.
Qed.

(** ** Column descriptors *)

Example repr_examples :
  repr (VText "it's") = String "034" ("it's" +:+ String "034" "")
  /\ repr (VText ("a" +:+ String "034" "b'c"))
     = "'a" +:+ String "034" "b\'c'"
  /\ repr (VInt (-12)) = "-12" /\ repr (VText "x") = "'x'"
  /\ repr (VText (String "010" "a")) = "'\na'"
  /\ repr (VText (String "001" "")) = "'\x01'"
  /\ repr_dict [("username", VText "nobody"); ("n", VInt 3)]
     = "{'username': 'nobody', 'n': 3}".
Proof. repeat split; vm_compute; reflexivity. Qed.

(** X18. For every descriptor whose default is [None] or a true value and
    whose constraint is not the empty text, [to_ddl] is the storage type,
    the nullability clause, the DEFAULT clause when a default is set, UNIQUE
    when the flag is set and the raw constraint when there is one, in this
    order. *)
Lemma to_ddl_refines_spec (f : Field) :
  plain_descriptor f = true -> to_ddl f = to_ddl_spec f.
Proof.
  destruct f as [k n d u c]. unfold plain_descriptor, to_ddl, to_ddl_spec.
  cbn [f_class null default unique constraints].
  intros [Hd Hc]%andb_true_iff.
  assert (Hd' : d = VNone \/ (truthy d = true /\ d <> VNone)).
  { apply orb_true_iff in Hd as [Ht | Hn%bool_decide_eq_true]; [right|by left].
    split; [exact Ht|]. by intros ->. }
  assert (Hc' : match c with
                | Some c' => constraints_truthy (Some c') = true
                | None => True
                end).
  { destruct c as [c'|]; [|exact I]. unfold constraints_truthy.
    destruct (String.eqb_spec c' "") as [->|_]; [|reflexivity].
    by rewrite negb_true_iff, bool_decide_eq_false in Hc. }
  clear Hd Hc.
  destruct Hd' as [-> | [Ht Hne]].
  - cbn [truthy]. destruct n, u, c as [c'|]; rewrite ?Hc';
      rewrite ?append_assoc, ?append_nil_r; reflexivity.
  - rewrite Ht. destruct d as [|z|s]; [done|..];
      destruct n, u, c as [c'|]; rewrite ?Hc';
      rewrite ?append_assoc, ?append_nil_r; reflexivity.
Qed.

(** C8. [to_ddl] emits the DEFAULT clause only for a default that is true
    in Python's sense: a descriptor whose default is set to [0] or to the
    empty text gets no DEFAULT clause, where the specified shape has one;
    a default of [1] does get its clause. *)
Theorem to_ddl_falsy_default_dropped :
  to_ddl (mkField IntField false (VInt 0) false None) = "INTEGER NOT NULL"
  /\ to_ddl_spec (mkField IntField false (VInt 0) false None)
     = "INTEGER NOT NULL DEFAULT 0"
  /\ to_ddl (mkField TextField false (VText "") false None) = "TEXT NOT NULL"
  /\ to_ddl (mkField IntField false (VInt 1) false None)
     = "INTEGER NOT NULL DEFAULT 1".
Proof. repeat split; vm_compute; reflexivity. Qed.

(** ** Table definitions *)

Example page_ddl_line_by_line :
  generate_create_table Page true
  = Ok ("CREATE TABLE IF NOT EXISTS pages (id INTEGER PRIMARY KEY AUTOINCREMENT,"
        +:+ String "010" "title TEXT NOT NULL UNIQUE,"
        +:+ String "010" "body TEXT NOT NULL)").
Proof. vm_compute. reflexivity. Qed.

Lemma columns_fold (l : list (string * Field)) (init : list string) :
  fold_left
    (fun (cols : list string) (item : string * Field) =>
       let '(colname, coltype) := item in
       (cols ++ [colname +:+ " " +:+ to_ddl coltype])%list) l init
  = (init ++ map column_ddl l)%list.
Proof.
  revert init. induction l as [|[n f] l IH]; intros init; cbn [fold_left map].
  - by rewrite app_nil_r.
  - rewrite IH, <- app_assoc. reflexivity.
Qed.

(** The shape of the table definition.  [generate_create_table] fails
    exactly when the table name is unset
    and otherwise produces the specified statement: CREATE TABLE, IF NOT
    EXISTS on request, the table name, the primary key column and one column
    per declared field in declaration order.  The failure is the
    [RuntimeError] of the method when the name is [None] or empty, and the
    [AttributeError] of the attribute lookup when the class declares no
    [table_name].  For [Page] the text is the specified one with a line
    break after each separating comma. *)
Theorem generate_create_table_shape :
  (forall cls if_not_exists,
      returned (generate_create_table cls if_not_exists)
      = create_table_spec cls if_not_exists)
  /\ (forall cls if_not_exists,
      is_ok (generate_create_table cls if_not_exists)
      = table_name_truthy (table_name cls))
  /\ (forall cls if_not_exists,
      match table_name cls with
      | Absent =>
          generate_create_table cls if_not_exists
          = Raise (AttributeError
              ("type object '" +:+ cls_name cls
               +:+ "' has no attribute 'table_name'"))
      | IsNone | IsStr "" =>
          generate_create_table cls if_not_exists
          = Raise (RuntimeError "table_name must be specified!")
      | IsStr _ => is_ok (generate_create_table cls if_not_exists) = true
      end)
  /\ generate_create_table Page true
     = Ok ("CREATE TABLE IF NOT EXISTS pages (id INTEGER PRIMARY KEY AUTOINCREMENT,"
           +:+ String "010" "title TEXT NOT NULL UNIQUE,"
           +:+ String "010" "body TEXT NOT NULL)")
  /\ match generate_create_table Page true with
     | Ok ddl =>
         drop_newlines ddl
         = "CREATE TABLE IF NOT EXISTS pages (id INTEGER PRIMARY KEY AUTOINCREMENT,title TEXT NOT NULL UNIQUE,body TEXT NOT NULL)"
     | Raise _ => False
     end.
Proof.
  assert (Hspec : forall cls ine,
             returned (generate_create_table cls ine)
             = create_table_spec cls ine).
  { intros [name tn fs] ine. unfold generate_create_table, create_table_spec,
      get_table_name. cbn [table_name cls_name fields].
    destruct tn as [| |s]; [reflexivity..|].
    destruct s as [|a s]; [reflexivity|].
    cbn [table_name_truthy String.eqb negb format_table_name returned].
    rewrite columns_fold. cbn [app]. f_equal.
    destruct ine; rewrite ?append_assoc, ?append_nil_r; reflexivity. }
  assert (Hok : forall cls ine,
             is_ok (generate_create_table cls ine)
             = table_name_truthy (table_name cls)).
  { intros [name tn fs] ine. unfold generate_create_table, get_table_name.
    cbn [table_name]. destruct tn as [| |[|a s]]; reflexivity. }
  split; [exact Hspec|]. split; [exact Hok|]. split.
  - intros [name tn fs] ine. cbn [table_name cls_name].
    destruct tn as [| |[|a s]]; [reflexivity..|]. by rewrite Hok.
  - split; vm_compute; reflexivity.
Qed.

(** C7. For a class that declares no [table_name], [DBObject] itself for
    one, [generate_create_table] does not reach its own check of the name:
    reading the attribute raises [AttributeError], not the [RuntimeError]
    that reports a missing table name.  The check is reached, and raises
    that [RuntimeError], only when the name is bound to [None] or to the
    empty text. *)
Theorem generate_create_table_undeclared_name :
  generate_create_table DBObject true
  = Raise (AttributeError "type object 'DBObject' has no attribute 'table_name'")
  /\ (forall name fs if_not_exists,
        generate_create_table (mkClass name Absent fs) if_not_exists
        = Raise (AttributeError
            ("type object '" +:+ name +:+ "' has no attribute 'table_name'")))
  /\ (forall name fs if_not_exists,
        generate_create_table (mkClass name IsNone fs) if_not_exists
        = Raise (RuntimeError "table_name must be specified!"))
  /\ (forall name fs if_not_exists,
        generate_create_table (mkClass name (IsStr "") fs) if_not_exists
        = Raise (RuntimeError "table_name must be specified!")).
Proof. by repeat split. Qed.

(** ** The gateway *)

Section GatewayFacts.

Context {DB : Type} `{!Engine DB}.

Implicit Types (w : world DB) (l : loc) (o : instance).

Lemma world_eta w : mkWorld (store w) (statements w) (heap w) = w.
Proof. by destruct w. Qed.

Lemma deref_ok w l o : heap w !! l = Some o -> deref l w = (Ok o, w).
Proof. intros H. unfold deref. by rewrite H. Qed.

Lemma getattr_ok w l o name v :
  heap w !! l = Some o -> inst_dict o !! name = Some v ->
  getattr l name w = (Ok v, w).
Proof.
  intros Hl Hv. unfold getattr, bind. rewrite (deref_ok _ _ _ Hl).
  by rewrite Hv.
Qed.

Lemma getattr_inv w w' l o name v :
  heap w !! l = Some o -> getattr l name w = (Ok v, w') ->
  w' = w /\ inst_dict o !! name = Some v.
Proof.
  intros Hl. unfold getattr, bind. rewrite (deref_ok _ _ _ Hl).
  destruct (inst_dict o !! name) as [v'|]; unfold ret, raise; intros H;
    by simplify_eq.
Qed.

(** [values()] reads the declared fields off the instance dictionary and
    leaves the world as it is. *)
Lemma comprehension_getattr w l o (names : list string) (vs : list value) :
  heap w !! l = Some o ->
  Forall2 (fun f v => inst_dict o !! f = Some v) names vs ->
  comprehension names (fun field => getattr l field) w = (Ok vs, w).
Proof.
  intros Hl HF. induction HF as [|f v names vs Hf _ IH]; [reflexivity|].
  cbn [comprehension]. unfold bind at 1.
  rewrite (getattr_ok _ _ _ _ _ Hl Hf). unfold bind at 1. by rewrite IH.
Qed.

Lemma comprehension_getattr_inv w w' l o (names : list string)
    (vs : list value) :
  heap w !! l = Some o ->
  comprehension names (fun field => getattr l field) w = (Ok vs, w') ->
  w' = w /\ Forall2 (fun f v => inst_dict o !! f = Some v) names vs.
Proof.
  intros Hl. revert vs w'. induction names as [|f names IH]; intros vs w'.
  - cbn. unfold ret. intros H. by simplify_eq.
  - cbn [comprehension]. unfold bind at 1.
    destruct (getattr l f w) as [[v|e] w1] eqn:Hg; [|intros H; by simplify_eq].
    apply (getattr_inv _ _ _ _ _ _ Hl) in Hg as [-> Hv].
    unfold bind at 1.
    destruct (comprehension names _ w) as [[vs'|e] w2];
      [|intros H; by simplify_eq].
    destruct (IH _ _ eq_refl) as [-> HF]. unfold ret. intros H. simplify_eq.
    split; [done|]. by constructor.
Qed.

Lemma values_ok w l o (vs : list value) :
  heap w !! l = Some o ->
  Forall2 (fun f v => inst_dict o !! f = Some v)
          (field_names (inst_class o)) vs ->
  values l w = (Ok vs, w).
Proof.
  intros Hl HF. unfold values, bind. rewrite (deref_ok _ _ _ Hl).
  by apply (comprehension_getattr _ _ o).
Qed.

Lemma values_inv w w' l o (vs : list value) :
  heap w !! l = Some o -> values l w = (Ok vs, w') ->
  w' = w /\ Forall2 (fun f v => inst_dict o !! f = Some v)
                    (field_names (inst_class o)) vs.
Proof.
  intros Hl. unfold values, bind. rewrite (deref_ok _ _ _ Hl).
  by apply comprehension_getattr_inv.
Qed.

(** [save] looks at the truth value of [id] and nothing else. *)
Lemma save_dispatch w l o v :
  heap w !! l = Some o -> inst_dict o !! "id" = Some v ->
  save l w = if truthy v then _update l w else _create l w.
Proof.
  intros Hl Hv. unfold save, bind. rewrite (getattr_ok _ _ _ _ _ Hl Hv).
  by destruct (truthy v).
Qed.

(** The insert path stops at the unbound name [c]: it raises [NameError]
    before any statement is issued and before the instance is touched. *)
Lemma create_raises_NameError w l o :
  heap w !! l = Some o -> table_name (inst_class o) <> Absent ->
  _create l w = (Raise (NameError "name 'c' is not defined"), w).
Proof.
  intros Hl Htn. unfold _create, bind at 1. rewrite (deref_ok _ _ _ Hl).
  unfold bind at 1, lift, self_table_name.
  destruct (table_name (inst_class o)) eqn:E; [done|..];
    unfold bind, with_con; cbn; by rewrite world_eta.
Qed.


(** *** The statements the gateway builds *)

Lemma where_clause_join (keys : list string) :
  PyStr.join " AND " (map (fun field => field +:+ " = ?") keys)
  = where_clause keys.
Proof.
  induction keys as [|k keys IH]; [reflexivity|].
  destruct keys as [|k' keys]; [reflexivity|].
  change (PyStr.join " AND " (map (fun field => field +:+ " = ?") (k :: k' :: keys)))
    with ((k +:+ " = ?") +:+ " AND "
          +:+ PyStr.join " AND " (map (fun field => field +:+ " = ?") (k' :: keys))).
  rewrite IH, append_assoc. reflexivity.
Qed.

Lemma select_sql_eq (tn : string) (keys : list string) :
  ("SELECT * FROM " +:+ tn +:+ " WHERE ")
  +:+ PyStr.join " AND " (map (fun field => field +:+ " = ?") keys)
  = select_statement tn keys.
Proof.
  rewrite where_clause_join. unfold select_statement.
  by rewrite !append_assoc.
Qed.

Lemma replace_sql_eq (tn : string) (cls : DBObject_class) :
  ("REPLACE INTO " +:+ tn +:+ " (id, " +:+ _fields_str cls +:+ ") ")
  +:+ "VALUES (?, " +:+ _placeholders_str cls +:+ ")"
  = replace_statement tn (field_names cls).
Proof.
  unfold replace_statement, _fields_str, _placeholders_str, field_names.
  rewrite !append_assoc. reflexivity.
Qed.

(** *** Construction of an instance *)

Lemma setattr_run w l o name v :
  heap w !! l = Some o ->
  setattr l name v w
  = (Ok tt, mkWorld (store w) (statements w)
              (<[l := mkInstance (inst_class o) (<[name := v]> (inst_dict o))]>
                 (heap w))).
Proof. intros Hl. unfold setattr, bind. by rewrite (deref_ok _ _ _ Hl). Qed.

Lemma for_each_setattr (kwargs : kwargs_t) l cls (names : list string) :
  forall (d : gmap string value) w,
    heap w !! l = Some (mkInstance cls d) ->
    for_each names (fun field => setattr l field (dict_get kwargs field)) w
    = (Ok tt, mkWorld (store w) (statements w)
                (<[l := mkInstance cls
                          (fold_left (fun d field => <[field := dict_get kwargs field]> d)
                                     names d)]> (heap w))).
Proof.
  induction names as [|f names IH]; intros d w Hl.
  - cbn. unfold ret. rewrite insert_id by done. by rewrite world_eta.
  - cbn [for_each fold_left]. unfold bind.
    rewrite (setattr_run _ _ _ _ _ Hl). cbn [inst_class inst_dict].
    rewrite (IH (<[f := dict_get kwargs f]> d)).
    + cbn [store statements heap]. by rewrite insert_insert_eq.
    + cbn [heap]. by rewrite lookup_insert_eq.
Qed.

(** Calling the class never fails: it allocates a fresh instance and
    fills its dictionary from the keyword arguments. *)
Lemma new_run (cls : DBObject_class) (kwargs : kwargs_t) w :
  new cls kwargs w
  = (Ok (fresh (dom (heap w))),
     mkWorld (store w) (statements w)
       (<[fresh (dom (heap w)) := mkInstance cls (init_dict cls kwargs)]>
          (heap w))).
Proof.
  unfold new, bind at 1, alloc. set (l := fresh (dom (heap w))).
  unfold bind at 1, DBObject_init, bind at 1.
  erewrite setattr_run by (cbn [heap]; apply lookup_insert_eq).
  cbn [store statements heap inst_class inst_dict].
  rewrite insert_insert_eq. unfold bind at 1.
  erewrite deref_ok by (cbn [heap]; apply lookup_insert_eq).
  cbn [inst_class].
  erewrite for_each_setattr by (cbn [heap]; apply lookup_insert_eq).
  cbn [store statements heap]. rewrite insert_insert_eq. reflexivity.
Qed.

Lemma init_dict_fold_other (kwargs : kwargs_t) (names : list string) k :
  forall d : gmap string value,
    k ∉ names ->
    fold_left (fun d field => <[field := dict_get kwargs field]> d) names d !! k
    = d !! k.
Proof.
  induction names as [|f names IH]; intros d Hk; [reflexivity|].
  cbn [fold_left]. rewrite IH by set_solver.
  apply lookup_insert_ne. set_solver.
Qed.

Lemma init_dict_fold_field (kwargs : kwargs_t) (names : list string) k :
  forall d : gmap string value,
    k ∈ names ->
    fold_left (fun d field => <[field := dict_get kwargs field]> d) names d !! k
    = Some (dict_get kwargs k).
Proof.
  induction names as [|f names IH]; intros d Hk; [by apply elem_of_nil in Hk|].
  cbn [fold_left]. destruct (decide (k ∈ names)) as [Hin|Hnin].
  - by apply IH.
  - rewrite init_dict_fold_other by done.
    apply elem_of_cons in Hk as [->|?]; [|done]. apply lookup_insert_eq.
Qed.

Lemma init_dict_field cls (kwargs : kwargs_t) k :
  k ∈ field_names cls -> init_dict cls kwargs !! k = Some (dict_get kwargs k).
Proof. apply init_dict_fold_field. Qed.

Lemma init_dict_id cls (kwargs : kwargs_t) :
  init_dict cls kwargs !! "id" = Some (dict_get kwargs "id").
Proof.
  unfold init_dict. destruct (decide ("id" ∈ map fst (fields cls))).
  - by apply init_dict_fold_field.
  - rewrite init_dict_fold_other by done. apply lookup_insert_eq.
Qed.


(** *** One run of [get] and of [_update] *)

Lemma get_run cls (kwargs : kwargs_t) w :
  kwargs <> [] -> table_name cls <> Absent ->
  get cls kwargs w =
    let sql := select_statement (format_table_name (table_name cls))
                                (map fst kwargs) in
    let log := (statements w ++ [(sql, map snd kwargs)])%list in
    match engine_execute sql (map snd kwargs) (store w) with
    | inl msg => (Raise (sqlite3_Error msg), mkWorld (store w) log (heap w))
    | inr (db, cursor) =>
        match fetchone cursor with
        | None =>
            (Raise (RecordNotFoundError (not_found_message cls kwargs)),
             mkWorld (store w) log (heap w))
        | Some row => new cls row (mkWorld db log (heap w))
        end
    end.
Proof.
  intros Hk Htn. destruct kwargs as [|kv kwargs]; [done|].
  unfold get, bind at 1, lift, get_table_name.
  destruct (table_name cls) as [| |tn] eqn:E; [done|..];
    rewrite select_sql_eq; unfold with_con, bind, con_execute;
    cbv zeta;
    (destruct (engine_execute _ _ (store w)) as [msg|[db cursor]];
     [reflexivity|]);
    (destruct (fetchone cursor) as [row|]; [|reflexivity]);
    by rewrite new_run.
Qed.

Lemma update_run w l o v (vs : list value) :
  heap w !! l = Some o ->
  inst_dict o !! "id" = Some v ->
  Forall2 (fun f x => inst_dict o !! f = Some x)
          (field_names (inst_class o)) vs ->
  table_name (inst_class o) <> Absent ->
  _update l w =
    let sql := replace_statement (format_table_name (table_name (inst_class o)))
                                 (field_names (inst_class o)) in
    let log := (statements w ++ [(sql, v :: vs)])%list in
    match engine_execute sql (v :: vs) (store w) with
    | inl msg => (Raise (sqlite3_Error msg), mkWorld (store w) log (heap w))
    | inr (db, _) => (Ok RNone, mkWorld db log (heap w))
    end.
Proof.
  intros Hl Hid Hvs Htn. unfold _update, bind at 1.
  rewrite (deref_ok _ _ _ Hl). unfold bind at 1, lift, self_table_name.
  destruct (table_name (inst_class o)) as [| |tn] eqn:E; [done|..];
    rewrite replace_sql_eq; unfold bind at 1, with_con, bind at 1;
    rewrite (getattr_ok _ _ _ _ _ Hl Hid); unfold bind at 1;
    rewrite (values_ok _ _ _ _ Hl Hvs); unfold con_execute; cbv zeta;
    by destruct (engine_execute _ _ (store w)) as [msg|[db cursor]].
Qed.


Lemma Forall2_elem_impl {A B} (P Q : A -> B -> Prop) (xs : list A)
    (ys : list B) :
  Forall2 P xs ys -> (forall x y, x ∈ xs -> P x y -> Q x y) ->
  Forall2 Q xs ys.
Proof.
  induction 1 as [|x y xs ys HP _ IH]; intros HQ; constructor.
  - apply HQ; [left|done].
  - apply IH. intros x' y' Hin. apply HQ. by right.
Qed.

Lemma as_dict_run w l o (vs : list value) :
  heap w !! l = Some o ->
  Forall2 (fun f x => inst_dict o !! f = Some x)
          (field_names (inst_class o)) vs ->
  as_dict l w = (Ok (dict_of_pairs (zip (field_names (inst_class o)) vs)), w).
Proof.
  intros Hl Hvs. unfold as_dict, bind at 1. rewrite (deref_ok _ _ _ Hl).
  unfold bind. by rewrite (values_ok _ _ _ _ Hl Hvs).
Qed.

(** *** Lookups *)

(** C4. [get] without lookup parameters raises the argument error
    ([ValueError]) for every entity class, and the world it leaves is the
    one it found: no statement was issued, the store is untouched. *)
Theorem get_without_lookup_rejected (cls : DBObject_class) w :
  get cls [] w
  = (Raise (ValueError "Lookup parameters for .get() are required"), w)
  /\ statements (snd (get cls [] w)) = statements w
  /\ store (snd (get cls [] w)) = store w.
Proof. by repeat split. Qed.

(** C5. When the query of [get] matches no row, [get] raises
    [RecordNotFoundError]; the message holds the name of the entity class
    and the lookup parameters, each key with its value, and the store is
    left as it was. *)
Theorem get_not_found cls (kwargs : kwargs_t) w db cursor :
  kwargs <> [] -> table_name cls <> Absent ->
  engine_execute
    (select_statement (format_table_name (table_name cls)) (map fst kwargs))
    (map snd kwargs) (store w) = inr (db, cursor) ->
  rows cursor = [] ->
  exists msg w',
    get cls kwargs w = (Raise (RecordNotFoundError msg), w')
    /\ store w' = store w /\ heap w' = heap w
    /\ msg = not_found_message cls kwargs
    /\ occurs_in (cls_name cls) msg
    /\ occurs_in (repr_dict kwargs) msg
    /\ (forall kv, In kv kwargs -> occurs_in (repr_item kv) msg).
Proof.
  intros Hk Htn Hex Hrows. rewrite (get_run _ _ _ Hk Htn). cbv zeta.
  rewrite Hex. unfold fetchone. rewrite Hrows. cbn [head].
  eexists _, _. split; [reflexivity|]. repeat split.
  - unfold not_found_message.
    apply occurs_in_app_r, occurs_in_app_l, occurs_in_refl.
  - unfold not_found_message.
    do 3 apply occurs_in_app_r. apply occurs_in_refl.
  - intros kv Hin. unfold not_found_message, repr_dict.
    do 4 apply occurs_in_app_r. apply occurs_in_app_l, occurs_in_join.
    by apply in_map.
Qed.

(** C6. With at least one lookup key, [get] issues exactly one statement:
    SELECT * FROM the table WHERE the keys, each followed by [= ?] and
    joined by AND in the order of the mapping; the text depends on the
    keys only, and the values are the bound parameters, in the same order.
    When rows come back, the instance is built from the first one and the
    others play no part. *)
Theorem get_query_shape cls (kwargs : kwargs_t) w :
  kwargs <> [] -> table_name cls <> Absent ->
  let sql := select_statement (format_table_name (table_name cls))
                              (map fst kwargs) in
  let log := (statements w ++ [(sql, map snd kwargs)])%list in
  statements (snd (get cls kwargs w)) = log
  /\ (forall db row rest lid,
        engine_execute sql (map snd kwargs) (store w)
        = inr (db, mkCursor (row :: rest) lid) ->
        get cls kwargs w
        = (Ok (fresh (dom (heap w))),
           mkWorld db log
             (<[fresh (dom (heap w)) := mkInstance cls (init_dict cls row)]>
                (heap w)))).
Proof.
  intros Hk Htn sql log. rewrite (get_run _ _ _ Hk Htn). cbv zeta.
  fold sql. fold log. split.
  - destruct (engine_execute sql (map snd kwargs) (store w))
      as [msg|[db cursor]]; [reflexivity|].
    destruct (fetchone cursor) as [row|]; [|reflexivity].
    by rewrite new_run.
  - intros db row rest lid ->. cbn [fetchone rows head]. by rewrite new_run.
Qed.


(** *** Saving *)

(** On the update path (the key is a true value), when the engine accepts
    the statement, [save] issues one REPLACE, leaves every object as it was
    and hands back [None], not the instance. *)
Theorem save_update_returns_None w l o v (vs : list value) db cursor :
  heap w !! l = Some o -> unshadowed o = true ->
  inst_dict o !! "id" = Some v -> truthy v = true ->
  values l w = (Ok vs, w) ->
  table_name (inst_class o) <> Absent ->
  let sql := replace_statement (format_table_name (table_name (inst_class o)))
                               (field_names (inst_class o)) in
  engine_execute sql (v :: vs) (store w) = inr (db, cursor) ->
  save l w
  = (Ok RNone, mkWorld db (statements w ++ [(sql, v :: vs)])%list (heap w))
  /\ fst (save l w) <> Ok (RObj l)
  /\ heap (snd (save l w)) = heap w.
Proof.
  intros Hl _ Hid Ht Hvs Htn sql Hex.
  apply (values_inv _ _ _ _ _ Hl) in Hvs as [_ Hvs].
  assert (Hs : save l w
               = (Ok RNone,
                  mkWorld db (statements w ++ [(sql, v :: vs)])%list (heap w))).
  { rewrite (save_dispatch _ _ _ _ Hl Hid), Ht.
    rewrite (update_run _ _ _ _ _ Hl Hid Hvs Htn). cbv zeta. fold sql.
    by rewrite Hex. }
  rewrite Hs. by repeat split.
Qed.

(** C2. For an instance whose key is unset ([None]), [save] takes the
    insert path and stops at the unbound name [c]: it raises [NameError],
    no INSERT is issued, and the key is still unset afterwards. *)
Theorem save_transient_raises_NameError w l o :
  heap w !! l = Some o ->
  inst_dict o !! "id" = Some VNone ->
  table_name (inst_class o) <> Absent ->
  save l w = (Raise (NameError "name 'c' is not defined"), w)
  /\ statements (snd (save l w)) = statements w
  /\ getattr l "id" (snd (save l w)) = (Ok VNone, snd (save l w)).
Proof.
  intros Hl Hid Htn.
  assert (Hs : save l w = (Raise (NameError "name 'c' is not defined"), w)).
  { rewrite (save_dispatch _ _ _ _ Hl Hid). cbn [truthy].
    by apply (create_raises_NameError _ _ o). }
  rewrite Hs. cbn [snd]. repeat split. by apply (getattr_ok _ _ o).
Qed.

(** C3. For an instance that was never saved, the round trip stops in
    [save]: [NameError] is raised on the insert path, the store and the
    instance are as before, and the lookup is never reached. *)
Theorem round_trip_of_transient_raises w l o :
  heap w !! l = Some o ->
  inst_dict o !! "id" = Some VNone ->
  table_name (inst_class o) <> Absent ->
  save_then_get (inst_class o) l w
  = (Raise (NameError "name 'c' is not defined"), w).
Proof.
  intros Hl Hid Htn. unfold save_then_get, bind at 1.
  rewrite (save_dispatch _ _ _ _ Hl Hid). cbn [truthy].
  by rewrite (create_raises_NameError _ _ o).
Qed.

(** C10. An instance whose key is set to a false value, the integer [0]
    for one, is sent to the insert path: [save] looks at the truth value
    of [id], not at whether it is [None]. *)
Theorem save_falsy_id_takes_insert_path w l o v :
  heap w !! l = Some o ->
  inst_dict o !! "id" = Some v -> truthy v = false ->
  save l w = _create l w
  /\ (v = VInt 0 \/ v = VNone \/ v = VText "").
Proof.
  intros Hl Hid Ht. rewrite (save_dispatch _ _ _ _ Hl Hid), Ht.
  split; [reflexivity|].
  destruct v as [|z|s]; cbn in Ht; [by right; left| |].
  - left. f_equal. apply negb_false_iff in Ht. lia.
  - right; right. f_equal. apply negb_false_iff in Ht.
    by apply String.eqb_eq.
Qed.


End GatewayFacts.

(** ** The gateway on the small engine *)

Ltac run := vm_compute; reflexivity.

(** The world after [save] of the page with key 7. *)
Example save_page7_world :
  save (fst page7) (snd page7)
  = (Ok RNone,
     mkWorld
       [("pages",
         MiniSQL.mkTable ["title"; "body"] 7
           [[("id", VInt 7); ("title", VText "Home"); ("body", VText "hello")]])]
       [("REPLACE INTO pages (id, title, body) VALUES (?, ?, ?)",
         [VInt 7; VText "Home"; VText "hello"])]
       (heap (snd page7))).
Proof. run. Qed.

(** C1. [save] does not hand the instance back: for the page with key 7 the
    call succeeds on the update path and its value is [None], not the
    reference of the page; no object is written to.  [save] returns what
    [_update] returns, and [_update] has no return statement. *)
Lemma save_does_not_return_instance :
  fst (save (fst page7) (snd page7)) = Ok RNone
  /\ fst (save (fst page7) (snd page7)) <> Ok (RObj (fst page7))
  /\ heap (snd (save (fst page7) (snd page7))) = heap (snd page7).
Proof. split; [run|]. split; [vm_compute; discriminate|run]. Qed.

Lemma save_update_returns_None_witness :
  save (fst page7) (snd page7)
  = (Ok RNone,
     mkWorld
       (store (snd (save (fst page7) (snd page7))))
       (statements (snd page7)
        ++ [(replace_statement "pages" ["title"; "body"],
             [VInt 7; VText "Home"; VText "hello"])])%list
       (heap (snd page7)))
  /\ fst (save (fst page7) (snd page7)) <> Ok (RObj (fst page7))
  /\ heap (snd (save (fst page7) (snd page7))) = heap (snd page7).
Proof.
  apply (save_update_returns_None (snd page7) (fst page7)
           (mkInstance Page
              (init_dict Page [("id", VInt 7); ("title", VText "Home");
                               ("body", VText "hello")]))
           (VInt 7) [VText "Home"; VText "hello"]
           (store (snd (save (fst page7) (snd page7))))
           (mkCursor [] (VInt 7))).
  - run.
  - run.
  - run.
  - run.
  - run.
  - vm_compute. discriminate.
  - run.
Defined.

Lemma save_transient_raises_NameError_witness :
  save (fst page_new) (snd page_new)
  = (Raise (NameError "name 'c' is not defined"), snd page_new)
  /\ statements (snd (save (fst page_new) (snd page_new)))
     = statements (snd page_new)
  /\ getattr (fst page_new) "id" (snd (save (fst page_new) (snd page_new)))
     = (Ok VNone, snd (save (fst page_new) (snd page_new))).
Proof.
  apply (save_transient_raises_NameError (snd page_new) (fst page_new)
           (mkInstance Page
              (init_dict Page [("title", VText "Home"); ("body", VText "hello")]))).
  - run.
  - run.
  - vm_compute. discriminate.
Defined.

Lemma round_trip_of_transient_raises_witness :
  save_then_get Page (fst page_new) (snd page_new)
  = (Raise (NameError "name 'c' is not defined"), snd page_new).
Proof.
  apply (round_trip_of_transient_raises (snd page_new) (fst page_new)
           (mkInstance Page
              (init_dict Page [("title", VText "Home"); ("body", VText "hello")]))).
  - run.
  - run.
  - vm_compute. discriminate.
Defined.

Lemma save_falsy_id_takes_insert_path_witness :
  save (fst page0) (snd page0) = _create (fst page0) (snd page0)
  /\ (VInt 0 = VInt 0 \/ VInt 0 = VNone \/ VInt 0 = VText "").
Proof.
  apply (save_falsy_id_takes_insert_path (snd page0) (fst page0)
           (mkInstance Page
              (init_dict Page [("id", VInt 0); ("title", VText "Home");
                               ("body", VText "hello")]))
           (VInt 0)).
  - run.
  - run.
  - run.
Defined.

Lemma get_not_found_witness :
  exists msg w',
    get User [("username", VText "nobody")]
        (mkWorld [("users", MiniSQL.mkTable ["username"; "password"] 0 [])] [] ∅)
    = (Raise (RecordNotFoundError msg), w')
    /\ msg = "No record for User found with params {'username': 'nobody'}".
Proof.
  destruct (get_not_found User [("username", VText "nobody")]
              (mkWorld [("users", MiniSQL.mkTable ["username"; "password"] 0 [])]
                       [] ∅)
              [("users", MiniSQL.mkTable ["username"; "password"] 0 [])]
              (mkCursor [] VNone))
    as (msg & w' & Hget & _ & _ & Hmsg & _).
  - vm_compute. discriminate.
  - vm_compute. discriminate.
  - run.
  - run.
  - exists msg, w'. split; [exact Hget|]. rewrite Hmsg. run.
Defined.

Lemma get_query_shape_witness :
  statements
    (snd (get Page [("title", VText "Home"); ("body", VText "hello")]
              (snd (save (fst page7) (snd page7)))))
  = [("REPLACE INTO pages (id, title, body) VALUES (?, ?, ?)",
      [VInt 7; VText "Home"; VText "hello"]);
     ("SELECT * FROM pages WHERE title = ? AND body = ?",
      [VText "Home"; VText "hello"])].
Proof.
  destruct (get_query_shape Page [("title", VText "Home"); ("body", VText "hello")]
              (snd (save (fst page7) (snd page7)))) as [Hlog _].
  - vm_compute. discriminate.
  - vm_compute. discriminate.
  - rewrite Hlog. run.
Defined.



(** * Further properties of the module *)

Lemma count_char_app (c : ascii) (s t : string) :
  count_char c (s +:+ t) = (count_char c s + count_char c t)%nat.
Proof.
  induction s as [|a s IH]; [reflexivity|].
  change (String a s +:+ t) with (String a (s +:+ t)).
  cbn [count_char]. rewrite IH. lia.
Qed.

Lemma count_char_join_clean (c : ascii) (sep : string) (l : list string) :
  count_char c sep = O -> Forall (fun x => count_char c x = O) l ->
  count_char c (PyStr.join sep l) = O.
Proof.
  intros Hsep. induction 1 as [|x l Hx Hl IH]; [reflexivity|].
  destruct l as [|y l]; [exact Hx|].
  change (PyStr.join sep (x :: y :: l))
    with (x +:+ sep +:+ PyStr.join sep (y :: l)).
  rewrite !count_char_app, Hx, Hsep, IH. reflexivity.
Qed.

Lemma count_placeholders {A} (l : list A) :
  count_char "?" (PyStr.join ", " (map (fun _ => "?") l)) = length l.
Proof.
  induction l as [|x l IH]; [reflexivity|].
  destruct l as [|y l]; [reflexivity|].
  change (PyStr.join ", " (map (fun _ : A => "?") (x :: y :: l)))
    with ("?" +:+ ", " +:+ PyStr.join ", " (map (fun _ : A => "?") (y :: l))).
  rewrite !count_char_app, IH. reflexivity.
Qed.

Lemma count_where_clause (keys : list string) :
  Forall (fun k => count_char "?" k = O) keys ->
  count_char "?" (where_clause keys) = length keys.
Proof.
  induction 1 as [|k keys Hk Hkeys IH]; [reflexivity|].
  destruct keys as [|k' keys].
  - cbn [where_clause length]. rewrite count_char_app, Hk. reflexivity.
  - change (where_clause (k :: k' :: keys))
      with (k +:+ " = ? AND " +:+ where_clause (k' :: keys)).
    rewrite !count_char_app, Hk, IH. reflexivity.
Qed.

Section ExtraFacts.

Context {DB : Type} `{!Engine DB}.

Implicit Types (w : world DB) (l : loc) (o : instance).

(** *** Construction *)

Lemma init_dict_other cls (kwargs : kwargs_t) k :
  k <> "id" -> k ∉ field_names cls -> init_dict cls kwargs !! k = None.
Proof.
  intros Hid Hk. unfold init_dict. rewrite init_dict_fold_other by exact Hk.
  rewrite lookup_insert_ne by done. apply lookup_empty.
Qed.

Lemma init_dict_values cls (kwargs : kwargs_t) :
  Forall2 (fun f x => init_dict cls kwargs !! f = Some x)
          (field_names cls) (map (dict_get kwargs) (field_names cls)).
Proof.
  apply Forall2_fmap_r, Forall2_same_length_lookup_2; [done|].
  intros i f f' Hf Hf'. simplify_eq. apply init_dict_field.
  by eapply list_elem_of_lookup_2.
Qed.

Lemma class_attribute_not_declared cls name :
  declares_no_class_attribute cls = true ->
  In name class_attribute_names -> name ∉ field_names cls.
Proof.
  intros Hcls Hname Hin. unfold declares_no_class_attribute in Hcls.
  rewrite forallb_forall in Hcls.
  apply list_elem_of_In, Hcls, negb_true_iff in Hin.
  assert (Hex : existsb (String.eqb name) class_attribute_names = true).
  { apply existsb_exists. exists name. split; [exact Hname|].
    apply String.eqb_refl. }
  congruence.
Qed.

Lemma init_dict_unshadowed cls (kwargs : kwargs_t) :
  declares_no_class_attribute cls = true ->
  unshadowed (mkInstance cls (init_dict cls kwargs)) = true.
Proof.
  intros Hcls. unfold unshadowed. apply forallb_forall. intros name Hname.
  apply bool_decide_eq_true. cbn [inst_dict]. apply init_dict_other.
  - cbn in Hname. intros ->.
    repeat (destruct Hname as [Hname|Hname]; [discriminate Hname|]).
    destruct Hname.
  - by apply class_attribute_not_declared.
Qed.

(** X1. For a class none of whose fields has the name of an attribute or a
    method of the class, and keyword arguments without the key [self],
    calling the class never fails and touches nothing that exists: the
    instance is a new object of the class, its dictionary has exactly [id]
    and the declared fields as keys, [id] and each declared field hold the
    keyword argument of that name, [None] where there is none, and no name
    of the class is shadowed. *)
Theorem new_builds_from_kwargs (cls : DBObject_class) (kwargs : kwargs_t) w :
  declares_no_class_attribute cls = true ->
  ~ In "self" (map fst kwargs) ->
  exists l w' o,
    new cls kwargs w = (Ok l, w')
    /\ heap w !! l = None
    /\ store w' = store w /\ statements w' = statements w
    /\ (forall l0, l0 <> l -> heap w' !! l0 = heap w !! l0)
    /\ heap w' !! l = Some o /\ inst_class o = cls
    /\ unshadowed o = true
    /\ (forall k, is_Some (inst_dict o !! k) <-> k = "id" \/ k ∈ field_names cls)
    /\ getattr l "id" w' = (Ok (dict_get kwargs "id"), w')
    /\ values l w' = (Ok (map (dict_get kwargs) (field_names cls)), w').
Proof.
  intros Hcls _. rewrite new_run. set (l := fresh (dom (heap w))).
  set (o := mkInstance cls (init_dict cls kwargs)).
  eexists l, _, o. split; [reflexivity|].
  assert (Hl : heap (mkWorld (store w) (statements w) (<[l:=o]> (heap w))) !! l
               = Some o) by apply lookup_insert_eq.
  split; [apply not_elem_of_dom, is_fresh|].
  split; [done|]. split; [done|].
  split; [intros l0 Hne; cbn [heap]; by rewrite lookup_insert_ne|].
  split; [exact Hl|]. split; [done|].
  split; [by apply init_dict_unshadowed|].
  split; [|split].
  - intros k. cbn [o inst_dict]. split.
    + intros Hsome. destruct (decide (k ∈ field_names cls)) as [?|Hnin];
        [by right|].
      destruct (decide (k = "id")) as [?|Hne]; [by left|].
      rewrite init_dict_other in Hsome by done. by destruct Hsome.
    + intros [->|Hin].
      * rewrite init_dict_id. by eexists.
      * rewrite init_dict_field by done. by eexists.
  - apply (getattr_ok _ _ o); [exact Hl|]. apply init_dict_id.
  - apply (values_ok _ _ o); [exact Hl|]. apply init_dict_values.
Qed.

(** X2. The instance depends on the keyword arguments only through [id] and the
    declared field names: keys the class does not declare are ignored. *)
Theorem new_ignores_unknown_keys (cls : DBObject_class)
    (kwargs1 kwargs2 : kwargs_t) w :
  dict_get kwargs1 "id" = dict_get kwargs2 "id" ->
  (forall f, f ∈ field_names cls -> dict_get kwargs1 f = dict_get kwargs2 f) ->
  new cls kwargs1 w = new cls kwargs2 w.
Proof.
  intros Hid Hf. rewrite !new_run.
  assert (init_dict cls kwargs1 = init_dict cls kwargs2) as ->; [|reflexivity].
  apply map_eq. intros k.
  destruct (decide (k ∈ field_names cls)) as [Hin|Hnin].
  - rewrite !init_dict_field by done. by rewrite Hf.
  - destruct (decide (k = "id")) as [->|Hne].
    + by rewrite !init_dict_id, Hid.
    + by rewrite !init_dict_other.
Qed.

(** *** The mapping of an instance *)

Lemma dict_of_pairs_fold (m : gmap string value) (names : list string)
    (vs : list value) k :
  Forall2 (fun f x => m !! f = Some x) names vs ->
  forall acc : gmap string value,
    fold_left (fun d kv => <[fst kv := snd kv]> d) (zip names vs) acc !! k
    = if decide (k ∈ names) then m !! k else acc !! k.
Proof.
  induction 1 as [|f x names vs Hf _ IH]; intros acc.
  - cbn. by rewrite decide_False by apply not_elem_of_nil.
  - cbn [zip zip_with fold_left fst snd]. rewrite IH.
    destruct (decide (k ∈ names)) as [Hin|Hnin].
    + by rewrite decide_True by (by right).
    + destruct (decide (k = f)) as [->|Hne].
      * rewrite decide_True by left. by rewrite lookup_insert_eq.
      * rewrite decide_False by (intros [?|?]%elem_of_cons; done).
        by rewrite lookup_insert_ne.
Qed.

(** X3. [as_dict] has exactly the declared field names as keys ([id] is not one
    of them unless it is declared), each with the current value of the
    attribute, and it leaves the world as it is. *)
Theorem as_dict_keys_and_values w w' l o (d : gmap string value) :
  heap w !! l = Some o ->
  as_dict l w = (Ok d, w') ->
  w' = w
  /\ (forall f, f ∈ field_names (inst_class o) -> d !! f = inst_dict o !! f)
  /\ (forall k, k ∉ field_names (inst_class o) -> d !! k = None).
Proof.
  intros Hl. unfold as_dict, bind at 1. rewrite (deref_ok _ _ _ Hl).
  unfold bind. destruct (values l w) as [[vs|e] w1] eqn:Hv;
    [|intros H; by simplify_eq].
  apply (values_inv _ _ _ _ _ Hl) in Hv as [-> Hvs].
  unfold ret. intros H. simplify_eq. split; [done|].
  unfold dict_of_pairs. split.
  - intros f Hin. rewrite (dict_of_pairs_fold _ _ _ _ Hvs).
    by rewrite decide_True.
  - intros k Hnin. rewrite (dict_of_pairs_fold _ _ _ _ Hvs).
    rewrite decide_False by done. apply lookup_empty.
Qed.

Lemma dict_get_zip (m : gmap string value) (names : list string)
    (vs : list value) f x :
  Forall2 (fun f x => m !! f = Some x) names vs ->
  f ∈ names -> m !! f = Some x ->
  dict_get (zip names vs) f = x.
Proof.
  induction 1 as [|g y names vs Hg _ IH]; intros Hin Hf.
  - by apply elem_of_nil in Hin.
  - cbn [zip zip_with dict_get]. destruct (String.eqb_spec g f) as [->|Hne].
    + congruence.
    + apply IH; [|done]. apply elem_of_cons in Hin as [?|?]; [congruence|done].
Qed.

(** X4. Turning an instance into a row ([id] and the declared fields with their
    values) and building an instance from that row gives a second object
    with the same key, the same values and the same mapping. *)
Theorem row_round_trip w l o v (vs : list value) :
  heap w !! l = Some o ->
  inst_dict o !! "id" = Some v ->
  values l w = (Ok vs, w) ->
  exists l' w',
    new (inst_class o) (("id", v) :: zip (field_names (inst_class o)) vs) w
    = (Ok l', w')
    /\ l' <> l
    /\ getattr l' "id" w' = (Ok v, w')
    /\ values l' w' = (Ok vs, w')
    /\ as_dict l' w' = as_dict l w'.
Proof.
  intros Hl Hid Hvs. apply (values_inv _ _ _ _ _ Hl) in Hvs as [_ Hvs].
  set (cls := inst_class o). set (row := ("id", v) :: zip (field_names cls) vs).
  rewrite new_run. set (l' := fresh (dom (heap w))).
  set (o' := mkInstance cls (init_dict cls row)). set (w' := mkWorld _ _ _).
  assert (Hfresh : l' <> l).
  { intros E. apply (is_fresh (dom (heap w))). fold l'. rewrite E.
    apply elem_of_dom. by eexists. }
  assert (Hl' : heap w' !! l' = Some o') by apply lookup_insert_eq.
  assert (Hl2 : heap w' !! l = Some o).
  { cbn [w' heap]. by rewrite lookup_insert_ne. }
  assert (Hrow : forall f x, f ∈ field_names cls -> inst_dict o !! f = Some x ->
                             dict_get row f = x).
  { intros f x Hin Hf. cbn [row dict_get].
    destruct (String.eqb_spec "id" f) as [<-|Hne]; [congruence|].
    by apply (dict_get_zip (inst_dict o)). }
  assert (Hvs' : Forall2 (fun f x => inst_dict o' !! f = Some x)
                         (field_names (inst_class o')) vs).
  { cbn [o' inst_class inst_dict]. apply (Forall2_elem_impl _ _ _ _ Hvs).
    intros f x Hin Hf. rewrite init_dict_field by done. f_equal. by apply Hrow. }
  exists l', w'. split; [reflexivity|]. split; [exact Hfresh|].
  split; [|split].
  - apply (getattr_ok _ _ o'); [done|]. cbn [o' inst_dict].
    rewrite init_dict_id. cbn [row dict_get]. by rewrite String.eqb_refl.
  - by apply (values_ok _ _ o').
  - rewrite (as_dict_run _ _ o' vs Hl' Hvs'). by rewrite (as_dict_run _ _ o vs Hl2 Hvs).
Qed.

(** *** Placeholders and parameters *)

Lemma get_log cls (kwargs : kwargs_t) w :
  kwargs <> [] -> table_name cls <> Absent ->
  statements (snd (get cls kwargs w))
  = (statements w
     ++ [(select_statement (format_table_name (table_name cls)) (map fst kwargs),
          map snd kwargs)])%list.
Proof.
  intros Hk Htn. rewrite (get_run _ _ _ Hk Htn). cbv zeta.
  destruct (engine_execute _ _ (store w)) as [msg|[db cursor]]; [reflexivity|].
  destruct (fetchone cursor) as [row|]; [|reflexivity]. by rewrite new_run.
Qed.

Lemma update_log w l o v (vs : list value) :
  heap w !! l = Some o ->
  inst_dict o !! "id" = Some v ->
  Forall2 (fun f x => inst_dict o !! f = Some x)
          (field_names (inst_class o)) vs ->
  table_name (inst_class o) <> Absent ->
  statements (snd (_update l w))
  = (statements w
     ++ [(replace_statement (format_table_name (table_name (inst_class o)))
                            (field_names (inst_class o)), v :: vs)])%list
  /\ heap (snd (_update l w)) = heap w.
Proof.
  intros Hl Hid Hvs Htn. rewrite (update_run _ _ _ _ _ Hl Hid Hvs Htn).
  cbv zeta. by destruct (engine_execute _ _ (store w)) as [msg|[db cursor]].
Qed.

(** X5. The statement of [get] has one placeholder per lookup value, so the
    bound parameters and the placeholders always agree in number, as long as
    the table name and the keys hold no question mark of their own. *)
Theorem get_placeholders_match_parameters cls (kwargs : kwargs_t) w :
  kwargs <> [] -> table_name cls <> Absent ->
  count_char "?" (format_table_name (table_name cls)) = O ->
  Forall (fun k => count_char "?" k = O) (map fst kwargs) ->
  exists sql params,
    statements (snd (get cls kwargs w)) = (statements w ++ [(sql, params)])%list
    /\ count_char "?" sql = length params
    /\ length params = length kwargs.
Proof.
  intros Hk Htn Hclean Hkeys. eexists _, _.
  split; [by apply get_log|]. split.
  - unfold select_statement. rewrite !count_char_app, Hclean.
    rewrite (count_where_clause _ Hkeys). cbn [count_char Ascii.eqb Bool.eqb].
    by rewrite !length_map.
  - by rewrite length_map.
Qed.

(** X6. For an instance whose dictionary binds no name of the class, the
    REPLACE statement of the update path has one placeholder for the key and
    one per declared field, and exactly as many parameters are bound, as
    long as the table name and the field names hold no question mark of
    their own. *)
Theorem update_placeholders_match_parameters w l o v (vs : list value) :
  heap w !! l = Some o -> unshadowed o = true ->
  inst_dict o !! "id" = Some v -> truthy v = true ->
  values l w = (Ok vs, w) ->
  table_name (inst_class o) <> Absent ->
  count_char "?" (format_table_name (table_name (inst_class o))) = O ->
  Forall (fun f => count_char "?" f = O) (field_names (inst_class o)) ->
  exists sql,
    statements (snd (save l w)) = (statements w ++ [(sql, v :: vs)])%list
    /\ count_char "?" sql = length (v :: vs)
    /\ length vs = length (fields (inst_class o)).
Proof.
  intros Hl _ Hid Ht Hvs Htn Hclean Hnames.
  apply (values_inv _ _ _ _ _ Hl) in Hvs as [_ Hvs].
  pose proof (Forall2_length _ _ _ Hvs) as Hlen.
  eexists. rewrite (save_dispatch _ _ _ _ Hl Hid), Ht.
  split; [by apply (update_log _ _ o)|]. split.
  - unfold replace_statement. rewrite !count_char_app, Hclean.
    rewrite count_placeholders.
    rewrite (count_char_join_clean "?" ", " _ eq_refl Hnames).
    cbn [count_char Ascii.eqb Bool.eqb length]. lia.
  - rewrite <- Hlen. unfold field_names. by rewrite length_map.
Qed.

(** *** Failures of the engine *)

(** X7. When the engine rejects the query of [get], the error reaches the
    caller as it is; the store is the one before the call and no instance was
    built. *)
Theorem get_engine_error cls (kwargs : kwargs_t) w msg :
  kwargs <> [] -> table_name cls <> Absent ->
  engine_execute
    (select_statement (format_table_name (table_name cls)) (map fst kwargs))
    (map snd kwargs) (store w) = inl msg ->
  exists w',
    get cls kwargs w = (Raise (sqlite3_Error msg), w')
    /\ store w' = store w /\ heap w' = heap w.
Proof.
  intros Hk Htn Hex. rewrite (get_run _ _ _ Hk Htn). cbv zeta. rewrite Hex.
  by eexists.
Qed.

(** X8. For an instance whose dictionary binds no name of the class: when
    the engine rejects the REPLACE of the update path, [save] raises the
    error of the engine; the store and every object are as before. *)
Theorem save_update_engine_error w l o v (vs : list value) msg :
  heap w !! l = Some o -> unshadowed o = true ->
  inst_dict o !! "id" = Some v -> truthy v = true ->
  values l w = (Ok vs, w) ->
  table_name (inst_class o) <> Absent ->
  engine_execute
    (replace_statement (format_table_name (table_name (inst_class o)))
                       (field_names (inst_class o)))
    (v :: vs) (store w) = inl msg ->
  exists w',
    save l w = (Raise (sqlite3_Error msg), w')
    /\ store w' = store w /\ heap w' = heap w.
Proof.
  intros Hl _ Hid Ht Hvs Htn Hex.
  apply (values_inv _ _ _ _ _ Hl) in Hvs as [_ Hvs].
  rewrite (save_dispatch _ _ _ _ Hl Hid), Ht.
  rewrite (update_run _ _ _ _ _ Hl Hid Hvs Htn). cbv zeta. rewrite Hex.
  by eexists.
Qed.

(** *** Identity of the instances [get] returns *)

Lemma get_ok_inv cls (kwargs : kwargs_t) w w' l :
  get cls kwargs w = (Ok l, w') ->
  l = fresh (dom (heap w))
  /\ exists o, heap w' = <[l := o]> (heap w) /\ inst_class o = cls.
Proof.
  destruct kwargs as [|kv kwargs]; [intros H; by simplify_eq|].
  assert (Hd : table_name cls = Absent \/ table_name cls <> Absent)
    by (destruct (table_name cls); [by left|by right..]).
  destruct Hd as [E|Htn].
  - unfold get, bind, lift, get_table_name. rewrite E. intros H. by simplify_eq.
  - assert (Hk : kv :: kwargs <> []) by done.
    rewrite (get_run _ _ _ Hk Htn). cbv zeta.
    destruct (engine_execute _ _ (store w)) as [msg|[db cursor]];
      [intros H; by simplify_eq|].
    destruct (fetchone cursor) as [row|]; [|intros H; by simplify_eq].
    rewrite new_run. cbn [heap]. intros H. simplify_eq.
    split; [done|]. by eexists.
Qed.

(** X9. Every successful [get] builds a new object: its reference was not in
    use before the call, the objects that existed are untouched, and a
    second lookup, even of the same row, returns another object. *)
Theorem get_returns_new_object cls (kwargs : kwargs_t) w w1 l1 :
  get cls kwargs w = (Ok l1, w1) ->
  heap w !! l1 = None
  /\ is_Some (heap w1 !! l1)
  /\ (forall l0, l0 <> l1 -> heap w1 !! l0 = heap w !! l0)
  /\ (forall cls2 (kwargs2 : kwargs_t) w2 l2,
        get cls2 kwargs2 w1 = (Ok l2, w2) -> l2 <> l1).
Proof.
  intros (-> & o & Hh & _)%get_ok_inv. split; [|split; [|split]].
  - apply not_elem_of_dom, is_fresh.
  - rewrite Hh, lookup_insert_eq. by eexists.
  - intros l0 Hne. by rewrite Hh, lookup_insert_ne.
  - intros cls2 kwargs2 w2 l2 (-> & _)%get_ok_inv E.
    apply (is_fresh (dom (heap w1))). rewrite E, Hh.
    apply elem_of_dom. rewrite lookup_insert_eq. by eexists.
Qed.

(** *** A class without fields *)

(** X10. For an entity class that declares no field, the statement of the update
    path names [id], a comma and nothing after it, and likewise among the
    placeholders; the key is the only parameter. *)
Theorem update_without_fields w l o v tn :
  heap w !! l = Some o ->
  inst_dict o !! "id" = Some v -> truthy v = true ->
  fields (inst_class o) = [] ->
  table_name (inst_class o) = IsStr tn ->
  statements (snd (save l w))
  = (statements w
     ++ [("REPLACE INTO " +:+ tn +:+ " (id, ) VALUES (?, )", [v])])%list.
Proof.
  intros Hl Hid Ht Hfs Htn.
  assert (Hne : table_name (inst_class o) <> Absent) by (by rewrite Htn).
  assert (Hvs : Forall2 (fun f x => inst_dict o !! f = Some x)
                        (field_names (inst_class o)) []).
  { unfold field_names. rewrite Hfs. constructor. }
  rewrite (save_dispatch _ _ _ _ Hl Hid), Ht.
  destruct (update_log _ _ _ _ _ Hl Hid Hvs Hne) as [-> _].
  unfold replace_statement, field_names. rewrite Hfs, Htn. reflexivity.
Qed.

(** *** Tables *)

Lemma drop_table_run cls w :
  table_name cls <> Absent ->
  drop_table cls w =
    let sql := "DROP TABLE " +:+ format_table_name (table_name cls) in
    let log := (statements w ++ [(sql, [])])%list in
    match engine_execute sql [] (store w) with
    | inl msg => (Raise (sqlite3_Error msg), mkWorld (store w) log (heap w))
    | inr (db, _) => (Ok tt, mkWorld db log (heap w))
    end.
Proof.
  intros Htn. unfold drop_table, with_con, bind at 1, lift, get_table_name.
  destruct (table_name cls) as [| |tn] eqn:E; [done|..];
    unfold bind, con_execute; cbv zeta;
    by destruct (engine_execute _ _ (store w)) as [msg|[db cursor]].
Qed.

Lemma create_only_run cls (ine : bool) w :
  create_table cls ine false w =
    match generate_create_table cls ine with
    | Raise e => (Raise e, w)
    | Ok ddl =>
        let log := (statements w ++ [(ddl, [])])%list in
        match engine_execute ddl [] (store w) with
        | inl msg => (Raise (sqlite3_Error msg), mkWorld (store w) log (heap w))
        | inr (db, _) => (Ok tt, mkWorld db log (heap w))
        end
    end.
Proof.
  unfold create_table, bind at 1, ret, with_con, bind at 1, lift.
  destruct (generate_create_table cls ine) as [ddl|e].
  - unfold bind, con_execute. cbv zeta.
    by destruct (engine_execute _ _ (store w)) as [msg|[db cursor]].
  - by rewrite world_eta.
Qed.

(** X11. Without [recreate], [create_table] issues at most one statement: none
    when the table definition cannot be generated (the error of
    [generate_create_table] reaches the caller and the world is untouched),
    otherwise the generated definition alone, with no parameter. *)
Theorem create_table_statements cls (ine : bool) w :
  match generate_create_table cls ine with
  | Raise e => create_table cls ine false w = (Raise e, w)
  | Ok ddl =>
      statements (snd (create_table cls ine false w))
      = (statements w ++ [(ddl, [])])%list
      /\ heap (snd (create_table cls ine false w)) = heap w
  end.
Proof.
  rewrite create_only_run. destruct (generate_create_table cls ine) as [ddl|e];
    [|reflexivity].
  cbv zeta. by destruct (engine_execute _ _ (store w)) as [msg|[db cursor]].
Qed.

(** X12. With [recreate], the table is dropped first and without a guard: when
    the engine rejects the DROP (the table does not exist yet), the error
    reaches the caller and no CREATE TABLE is issued. *)
Theorem recreate_stops_at_failed_drop cls (ine : bool) w msg :
  table_name cls <> Absent ->
  engine_execute ("DROP TABLE " +:+ format_table_name (table_name cls)) []
                 (store w) = inl msg ->
  create_table cls ine true w
  = (Raise (sqlite3_Error msg),
     mkWorld (store w)
       (statements w
        ++ [("DROP TABLE " +:+ format_table_name (table_name cls), [])])%list
       (heap w)).
Proof.
  intros Htn Hex. unfold create_table, bind at 1.
  rewrite (drop_table_run _ _ Htn). cbv zeta. by rewrite Hex.
Qed.

(** X13. With [recreate], dropping and creating are two transactions: once the
    engine has accepted the DROP, [create_table] goes on as a call without
    [recreate] in the world after the drop, so that a CREATE TABLE that is
    rejected leaves the table dropped. *)
Theorem recreate_is_drop_then_create cls (ine : bool) w db cursor :
  table_name cls <> Absent ->
  engine_execute ("DROP TABLE " +:+ format_table_name (table_name cls)) []
                 (store w) = inr (db, cursor) ->
  let w1 := mkWorld db
              (statements w
               ++ [("DROP TABLE " +:+ format_table_name (table_name cls), [])])%list
              (heap w) in
  create_table cls ine true w = create_table cls ine false w1
  /\ (forall ddl msg,
        generate_create_table cls ine = Ok ddl ->
        engine_execute ddl [] db = inl msg ->
        create_table cls ine true w
        = (Raise (sqlite3_Error msg),
           mkWorld db (statements w1 ++ [(ddl, [])])%list (heap w))).
Proof.
  intros Htn Hex w1.
  assert (H1 : create_table cls ine true w = create_table cls ine false w1).
  { unfold create_table, bind at 1. rewrite (drop_table_run _ _ Htn).
    cbv zeta. rewrite Hex. unfold bind at 2, ret. reflexivity. }
  split; [exact H1|]. intros ddl msg Hddl Hrej.
  rewrite H1, create_only_run, Hddl. cbv zeta. cbn [w1 store]. by rewrite Hrej.
Qed.

(** X14. For a class whose [table_name] is [None], [create_table] with
    [recreate] sends [DROP TABLE None] to the engine before the missing name
    is reported: the check of the name belongs to the generation of the
    table definition, which comes after the drop. *)
Theorem recreate_drops_before_name_check cls (ine : bool) w db cursor :
  table_name cls = IsNone ->
  engine_execute "DROP TABLE None" [] (store w) = inr (db, cursor) ->
  create_table cls ine true w
  = (Raise (RuntimeError "table_name must be specified!"),
     mkWorld db (statements w ++ [("DROP TABLE None", [])])%list (heap w)).
Proof.
  intros Htn Hex.
  assert (Hne : table_name cls <> Absent) by (by rewrite Htn).
  unfold create_table, bind at 1. rewrite (drop_table_run _ _ Hne).
  cbv zeta. rewrite Htn. cbn [format_table_name].
  change ("DROP TABLE " +:+ "None") with "DROP TABLE None". rewrite Hex.
  unfold with_con, bind at 1, lift, generate_create_table, get_table_name.
  rewrite Htn. reflexivity.
Qed.

(** *** Filtered queries *)

Lemma comprehension_new cls (rs : list kwargs_t) :
  forall w,
    exists ls w',
      comprehension rs (fun row => new cls row) w = (Ok ls, w')
      /\ store w' = store w /\ statements w' = statements w
      /\ NoDup ls
      /\ (forall l, l ∈ ls -> heap w !! l = None)
      /\ (forall l0, is_Some (heap w !! l0) -> heap w' !! l0 = heap w !! l0)
      /\ Forall2 (fun l row =>
                    heap w' !! l = Some (mkInstance cls (init_dict cls row)))
                 ls rs.
Proof.
  induction rs as [|row rs IH]; intros w.
  - exists [], w. cbn. repeat split; try done; try constructor.
    intros l Hl. by apply elem_of_nil in Hl.
  - cbn [comprehension]. unfold bind at 1. rewrite new_run.
    set (l1 := fresh (dom (heap w))).
    set (o1 := mkInstance cls (init_dict cls row)).
    set (w1 := mkWorld (store w) (statements w) (<[l1:=o1]> (heap w))).
    destruct (IH w1) as (ls & w' & Hc & Hst & Hlog & Hnd & Hfresh & Hframe & Hall).
    unfold bind at 1. rewrite Hc. unfold ret.
    assert (Hl1 : heap w !! l1 = None) by apply not_elem_of_dom, is_fresh.
    assert (Hw1 : heap w1 !! l1 = Some o1) by apply lookup_insert_eq.
    assert (Hnot : l1 ∉ ls).
    { intros Hin. apply Hfresh in Hin. congruence. }
    exists (l1 :: ls), w'. split; [reflexivity|].
    split; [by rewrite Hst|]. split; [by rewrite Hlog|].
    split; [by constructor|]. split; [|split].
    + intros l [->|Hin]%elem_of_cons; [done|].
      pose proof (Hfresh _ Hin) as Hn. cbn [w1 heap] in Hn.
      destruct (decide (l = l1)) as [->|Hne]; [done|].
      by rewrite lookup_insert_ne in Hn.
    + intros l0 Hsome.
      assert (Hne : l1 <> l0).
      { intros <-. rewrite Hl1 in Hsome. by destruct Hsome. }
      assert (Hsame : heap w1 !! l0 = heap w !! l0).
      { cbn [w1 heap]. by rewrite lookup_insert_ne. }
      rewrite <- Hsame. apply Hframe. by rewrite Hsame.
    + constructor; [|exact Hall].
      rewrite Hframe; [exact Hw1|]. rewrite Hw1. by eexists.
Qed.

(** X15. [select] hands the text and the parameters of [select_sql] to the
    engine once and builds one instance per row of the answer, in the order
    of the rows: the instances are new and distinct objects, each filled from
    its row, and no earlier object is touched.  An answer without rows gives
    the empty list, not an error. *)
Theorem select_builds_one_instance_per_row cls (where_ : where_arg)
    (clauses : option string) w sql (params : list value) db cursor :
  select_sql cls where_ clauses = Ok (sql, params) ->
  engine_execute sql params (store w) = inr (db, cursor) ->
  exists ls w',
    select cls where_ clauses w = (Ok ls, w')
    /\ store w' = db
    /\ statements w' = (statements w ++ [(sql, params)])%list
    /\ length ls = length (rows cursor)
    /\ NoDup ls
    /\ (forall l, l ∈ ls -> heap w !! l = None)
    /\ (forall l0, is_Some (heap w !! l0) -> heap w' !! l0 = heap w !! l0)
    /\ Forall2 (fun l row =>
                  heap w' !! l = Some (mkInstance cls (init_dict cls row)))
               ls (rows cursor).
Proof.
  intros Hsql Hex. unfold select, bind at 1, lift. rewrite Hsql.
  cbn [fst snd]. unfold with_con, bind at 1, con_execute. rewrite Hex.
  destruct (comprehension_new cls (rows cursor)
              (mkWorld db (statements w ++ [(sql, params)])%list (heap w)))
    as (ls & w' & Hc & Hst & Hlog & Hnd & Hfresh & Hframe & Hall).
  rewrite Hc. exists ls, w'. split; [reflexivity|].
  split; [exact Hst|]. split; [exact Hlog|].
  split; [by apply Forall2_length in Hall|]. by repeat split.
Qed.

(** X16. The text of [select_sql] never holds the parameters: it is the same
    whatever values a sequence binds after its condition, and those values
    are returned as they came.  A plain condition binds nothing. *)
Theorem select_sql_keeps_parameters_apart cls (clause : value)
    (params1 params2 : list value) (clauses : option string) sql :
  select_sql cls (WTuple clause params1) clauses = Ok (sql, params1) ->
  select_sql cls (WTuple clause params2) clauses = Ok (sql, params2)
  /\ select_sql cls (WStr (str clause)) clauses = Ok (sql, []).
Proof.
  unfold select_sql. destruct (get_table_name cls) as [tn|e]; [|done].
  destruct clauses as [c|]; cbn; [destruct (negb (String.eqb c ""))|];
    intros H; by simplify_eq.
Qed.

(** *** The printed form *)

Lemma dict_items_zip (m d : gmap string value) (names : list string)
    (vs : list value) :
  Forall2 (fun f x => m !! f = Some x) names vs ->
  (forall f, f ∈ names -> d !! f = m !! f) ->
  dict_items names d = zip names vs.
Proof.
  unfold dict_items. induction 1 as [|f x names vs Hf _ IH]; intros Hd;
    [reflexivity|].
  cbn [omap list_omap zip zip_with]. rewrite (Hd f) by left. rewrite Hf.
  f_equal. apply IH. intros g Hg. apply Hd. by right.
Qed.

(** X17. On an instance that has its key and its fields and whose
    dictionary binds no name of the class, [__str__] succeeds and changes
    nothing; the text holds the name of the class and every field with its
    value, and the key when it is a true value; when the key is false
    (unset, or the integer 0) the text has no [id=] part. *)
Theorem DBObject_str_shows_fields w l o v (vs : list value) :
  heap w !! l = Some o -> unshadowed o = true ->
  inst_dict o !! "id" = Some v ->
  values l w = (Ok vs, w) ->
  exists text,
    DBObject_str l w = (Ok text, w)
    /\ occurs_in (cls_name (inst_class o)) text
    /\ (forall kv, In kv (zip (field_names (inst_class o)) vs) ->
        occurs_in (fst kv +:+ "=" +:+ str (snd kv)) text)
    /\ (truthy v = true -> occurs_in ("id=" +:+ str v +:+ " ") text)
    /\ (truthy v = false ->
        text = "<" +:+ cls_name (inst_class o) +:+ " "
               +:+ PyStr.join " "
                     (map (fun kv => fst kv +:+ "=" +:+ str (snd kv))
                          (zip (field_names (inst_class o)) vs))
               +:+ ">").
Proof.
  intros Hl _ Hid Hvs. apply (values_inv _ _ _ _ _ Hl) in Hvs as [_ Hvs].
  unfold DBObject_str, bind at 1.
  rewrite (deref_ok _ _ _ Hl). unfold bind at 1.
  rewrite (getattr_ok _ _ _ _ _ Hl Hid). unfold bind at 1.
  rewrite (as_dict_run _ _ o vs Hl Hvs).
  rewrite (dict_items_zip (inst_dict o) _ _ vs Hvs).
  2:{ intros f Hin. unfold dict_of_pairs.
      rewrite (dict_of_pairs_fold _ _ _ _ Hvs). by rewrite decide_True. }
  unfold ret. eexists. split; [reflexivity|].
  set (items := PyStr.join " " _). split; [|split; [|split]].
  - apply occurs_in_app_l, occurs_in_app_l.
    destruct (truthy v); [apply occurs_in_app_l|];
      apply occurs_in_app_r, occurs_in_app_l, occurs_in_refl.
  - intros kv Hin. apply occurs_in_app_l, occurs_in_app_r.
    apply occurs_in_join. by apply (in_map (fun kv => fst kv +:+ "=" +:+ str (snd kv))).
  - intros ->. apply occurs_in_app_l, occurs_in_app_l, occurs_in_app_r.
    apply occurs_in_refl.
  - intros ->. by rewrite !append_assoc.
Qed.

End ExtraFacts.

(** ** The further properties on the small engine *)

Lemma to_ddl_refines_spec_witness :
  to_ddl (mkField IntField false VNone false (Some "REFERENCES users(id)"))
  = "INTEGER NOT NULL REFERENCES users(id)".
Proof.
  rewrite (to_ddl_refines_spec
             (mkField IntField false VNone false (Some "REFERENCES users(id)"))).
  - run.
  - run.
Defined.

Lemma new_builds_from_kwargs_witness :
  exists l w',
    new Page [("title", VText "Home")] empty_pages = (Ok l, w')
    /\ getattr l "id" w' = (Ok VNone, w')
    /\ values l w' = (Ok [VText "Home"; VNone], w').
Proof.
  destruct (new_builds_from_kwargs Page [("title", VText "Home")] empty_pages)
    as (l & w' & o & Hnew & _ & _ & _ & _ & _ & _ & _ & _ & Hid & Hvs).
  - run.
  - cbn. intros [H|[]]. discriminate H.
  - exists l, w'. by repeat split.
Defined.

Lemma new_ignores_unknown_keys_witness :
  new Page [("title", VText "a"); ("body", VText "b")] empty_pages
  = new Page [("title", VText "a"); ("colour", VText "red"); ("body", VText "b")]
        empty_pages.
Proof.
  apply (new_ignores_unknown_keys Page).
  - run.
  - intros f Hin. apply list_elem_of_In in Hin.
    destruct Hin as [<-|[<-|[]]]; run.
Defined.

Lemma as_dict_keys_and_values_witness :
  dict_of_pairs [("title", VText "Home"); ("body", VText "hello")] !! "title"
  = Some (VText "Home")
  /\ dict_of_pairs [("title", VText "Home"); ("body", VText "hello")] !! "id"
     = None.
Proof.
  destruct (as_dict_keys_and_values (snd page7) (snd page7) (fst page7)
              page7_obj
              (dict_of_pairs [("title", VText "Home"); ("body", VText "hello")]))
    as (_ & Hin & Hout).
  - run.
  - run.
  - split.
    + rewrite (Hin "title"); [run|]. apply list_elem_of_In. vm_compute. by left.
    + apply Hout. intros Hin'. apply list_elem_of_In in Hin'.
      vm_compute in Hin'. by destruct Hin' as [?|[?|[]]].
Defined.

Lemma row_round_trip_witness :
  exists l' w',
    new Page [("id", VInt 7); ("title", VText "Home"); ("body", VText "hello")]
        (snd page7) = (Ok l', w')
    /\ l' <> fst page7
    /\ values l' w' = (Ok [VText "Home"; VText "hello"], w').
Proof.
  destruct (row_round_trip (snd page7) (fst page7) page7_obj (VInt 7)
              [VText "Home"; VText "hello"])
    as (l' & w' & Hnew & Hne & _ & Hvs & _).
  - run.
  - run.
  - run.
  - exists l', w'. split; [|by split]. rewrite <- Hnew. run.
Defined.

Lemma get_placeholders_match_parameters_witness :
  exists sql params,
    statements
      (snd (get User [("username", VText "ann"); ("password", VText "pw")]
                empty_pages))
    = [(sql, params)]
    /\ count_char "?" sql = 2%nat /\ length params = 2%nat.
Proof.
  destruct (get_placeholders_match_parameters User
              [("username", VText "ann"); ("password", VText "pw")] empty_pages)
    as (sql & params & Hlog & Hcount & Hlen).
  - vm_compute. discriminate.
  - vm_compute. discriminate.
  - run.
  - repeat constructor.
  - exists sql, params. split; [exact Hlog|]. split; [|exact Hlen].
    by rewrite Hcount, Hlen.
Defined.

Lemma update_placeholders_match_parameters_witness :
  exists sql,
    statements (snd (save (fst page7) (snd page7)))
    = [(sql, [VInt 7; VText "Home"; VText "hello"])]
    /\ count_char "?" sql = 3%nat.
Proof.
  destruct (update_placeholders_match_parameters (snd page7) (fst page7)
              page7_obj (VInt 7) [VText "Home"; VText "hello"])
    as (sql & Hlog & Hcount & _).
  - run.
  - run.
  - run.
  - run.
  - run.
  - vm_compute. discriminate.
  - run.
  - repeat constructor.
  - exists sql. by split.
Defined.

Lemma get_engine_error_witness :
  exists w',
    get Page [("colour", VText "red")] empty_pages
    = (Raise (sqlite3_Error "no such column"), w')
    /\ store w' = store empty_pages /\ heap w' = heap empty_pages.
Proof.
  apply (get_engine_error Page [("colour", VText "red")] empty_pages).
  - vm_compute. discriminate.
  - vm_compute. discriminate.
  - run.
Defined.

Lemma save_update_engine_error_witness :
  exists w',
    save (fst marker3) (snd marker3)
    = (Raise (sqlite3_Error "no such table: markers"), w')
    /\ store w' = store (snd marker3) /\ heap w' = heap (snd marker3).
Proof.
  apply (save_update_engine_error (snd marker3) (fst marker3)
           (mkInstance Marker (init_dict Marker [("id", VInt 3)]))
           (VInt 3) []).
  - run.
  - run.
  - run.
  - run.
  - run.
  - vm_compute. discriminate.
  - run.
Defined.

Lemma get_returns_new_object_witness :
  heap (snd (save (fst page7) (snd page7))) !! 2%positive = None
  /\ forall w2 l2,
      get Page [("id", VInt 7)]
          (snd (get Page [("id", VInt 7)] (snd (save (fst page7) (snd page7)))))
      = (Ok l2, w2) -> l2 <> 2%positive.
Proof.
  destruct (get_returns_new_object Page [("id", VInt 7)]
              (snd (save (fst page7) (snd page7)))
              (snd (get Page [("id", VInt 7)] (snd (save (fst page7) (snd page7)))))
              2%positive)
    as (Hfresh & _ & _ & Hnext).
  - run.
  - split; [exact Hfresh|]. intros w2 l2. apply Hnext.
Defined.

Lemma update_without_fields_witness :
  statements (snd (save (fst marker3) (snd marker3)))
  = [("REPLACE INTO markers (id, ) VALUES (?, )", [VInt 3])].
Proof.
  rewrite (update_without_fields (snd marker3) (fst marker3)
             (mkInstance Marker (init_dict Marker [("id", VInt 3)]))
             (VInt 3) "markers").
  - run.
  - run.
  - run.
  - run.
  - run.
  - run.
Defined.

Lemma recreate_stops_at_failed_drop_witness :
  @create_table MiniSQL.db MiniDDL.execute Page true true empty_world
  = (Raise (sqlite3_Error "no such table: pages"),
     mkWorld [] [("DROP TABLE pages", [])] ∅).
Proof.
  rewrite (@recreate_stops_at_failed_drop MiniSQL.db MiniDDL.execute Page true
             empty_world "no such table: pages").
  - run.
  - vm_compute. discriminate.
  - run.
Defined.

Lemma recreate_is_drop_then_create_witness :
  @create_table MiniSQL.db MiniDDL.execute Page true true empty_pages
  = @create_table MiniSQL.db MiniDDL.execute Page true false
      (mkWorld [] [("DROP TABLE pages", [])] ∅).
Proof.
  destruct (@recreate_is_drop_then_create MiniSQL.db MiniDDL.execute Page true
              empty_pages [] (mkCursor [] VNone)) as [H _].
  - vm_compute. discriminate.
  - run.
  - rewrite H. run.
Defined.

Lemma recreate_drops_before_name_check_witness :
  @create_table MiniSQL.db MiniDDL.execute Unnamed true true none_table
  = (Raise (RuntimeError "table_name must be specified!"),
     mkWorld [] [("DROP TABLE None", [])] ∅).
Proof.
  rewrite (@recreate_drops_before_name_check MiniSQL.db MiniDDL.execute Unnamed
             true none_table [] (mkCursor [] VNone)).
  - run.
  - run.
  - run.
Defined.

Lemma select_builds_one_instance_per_row_witness :
  exists ls w',
    select Page (WTuple (VText "title = ?") [VText "Home"]) None
           (snd (save (fst page7) (snd page7))) = (Ok ls, w')
    /\ length ls = 1%nat
    /\ Forall2 (fun l row =>
                  heap w' !! l = Some (mkInstance Page (init_dict Page row)))
               ls [[("id", VInt 7); ("title", VText "Home");
                    ("body", VText "hello")]].
Proof.
  destruct (select_builds_one_instance_per_row Page
              (WTuple (VText "title = ?") [VText "Home"]) None
              (snd (save (fst page7) (snd page7)))
              "SELECT * FROM pages WHERE title = ? " [VText "Home"]
              (store (snd (save (fst page7) (snd page7))))
              (mkCursor [[("id", VInt 7); ("title", VText "Home");
                          ("body", VText "hello")]] VNone))
    as (ls & w' & Hsel & _ & _ & Hlen & _ & _ & _ & Hall).
  - run.
  - run.
  - exists ls, w'. by repeat split.
Defined.

Lemma select_sql_keeps_parameters_apart_witness :
  select_sql Page (WTuple (VText "title = ?") [VText "Away"]) (Some "LIMIT 1")
  = Ok ("SELECT * FROM pages WHERE title = ? LIMIT 1", [VText "Away"])
  /\ select_sql Page (WStr "title = ?") (Some "LIMIT 1")
     = Ok ("SELECT * FROM pages WHERE title = ? LIMIT 1", []).
Proof.
  apply (select_sql_keeps_parameters_apart Page (VText "title = ?")
           [VText "Home"] [VText "Away"] (Some "LIMIT 1")
           "SELECT * FROM pages WHERE title = ? LIMIT 1").
  run.
Defined.

Lemma DBObject_str_shows_fields_witness :
  exists text,
    DBObject_str (fst page7) (snd page7) = (Ok text, snd page7)
    /\ occurs_in "Page" text
    /\ occurs_in "id=7 " text.
Proof.
  destruct (DBObject_str_shows_fields (snd page7) (fst page7) page7_obj
              (VInt 7) [VText "Home"; VText "hello"])
    as (text & Hstr & Hname & _ & Hid & _).
  - run.
  - run.
  - run.
  - run.
  - exists text. split; [exact Hstr|]. split; [exact Hname|].
    apply Hid. run.
Defined.
